(** * PR analysis pipeline: a shallow embedding and its checked properties

    The development follows the Python sources under [backend/app]:
    - [services/risk_scorer.py], [services/secret_scanner.py],
      [services/dependency_scanner.py];
    - [agents/repo_scanner.py], [agents/risk_security.py],
      [agents/test_synthesizer.py], [agents/reviewer.py];
    - [orchestrator/runner.py] and [models/schemas.py].

    Conventions of the embedding.
    - Python [int] is [Z]; [len] results are [nat] and are injected into
      [Z] where the source compares or adds them to integers.
    - Python [str] is [string]; text is read as ASCII (code points below
      128), so case mapping and the character classes are the ASCII ones.
    - [dict] objects are [gmap]s when only lookups matter and association
      lists when the iteration order is observable.
    - The [re] module is embedded as a backtracking matcher over a regular
      expression syntax tree ([Module Re]); the patterns of the embedded
      functions are transcribed as values of that syntax.
    - A computation that can raise returns an [outcome]: a value, or the
      text of the exception ([str(e)], which is what the handlers read).
      The exceptions of the embedded statements are derived from the code;
      an exception that comes from outside them (a limit of the interpreter,
      for instance) is given by an explicit oracle ([Faults]), stage by
      stage. *)

From Stdlib Require Import ZArith String Ascii List Bool Lia.
From stdpp Require Import gmap strings list fin_maps pretty.

Import ListNotations.
Local Open Scope string_scope.
Local Open Scope list_scope.

(** ** Python string primitives *)

Module Py.

Definition code (c : ascii) : nat := nat_of_ascii c.

Definition in_range (lo hi : nat) (c : ascii) : bool :=
  (lo <=? code c)%nat && (code c <=? hi)%nat.

Definition is_upper (c : ascii) : bool := in_range 65 90 c.
Definition is_lower (c : ascii) : bool := in_range 97 122 c.
Definition is_digit (c : ascii) : bool := in_range 48 57 c.
Definition is_alpha (c : ascii) : bool := is_upper c || is_lower c.
Definition is_alnum (c : ascii) : bool := is_alpha c || is_digit c.

(** [str.isspace] on ASCII: tab, newline, vertical tab, form feed,
    carriage return, the four separators 28..31 and the space. *)
Definition is_space (c : ascii) : bool :=
  in_range 9 13 c || in_range 28 31 c || (code c =? 32)%nat.

Definition lower_char (c : ascii) : ascii :=
  if is_upper c then ascii_of_nat (code c + 32) else c.

(** [s.lower()] *)
Fixpoint lower (s : string) : string :=
  match s with
  | EmptyString => EmptyString
  | String c s' => String (lower_char c) (lower s')
  end.

(** [s.startswith(p)] *)
Fixpoint startswith (s p : string) : bool :=
  match p, s with
  | EmptyString, _ => true
  | String a p', String b s' => Ascii.eqb a b && startswith s' p'
  | String _ _, EmptyString => false
  end.

(** [sub in s] *)
Fixpoint contains (sub s : string) : bool :=
  startswith s sub ||
  match s with
  | EmptyString => false
  | String _ s' => contains sub s'
  end.

Fixpoint rev_acc (s acc : string) : string :=
  match s with
  | EmptyString => acc
  | String c s' => rev_acc s' (String c acc)
  end.

Definition rev (s : string) : string := rev_acc s EmptyString.

(** [s.endswith(p)] *)
Definition endswith (s p : string) : bool := startswith (rev s) (rev p).

(** [s.split(sep)] for a one-character separator: never the empty list. *)
Fixpoint split (sep : ascii) (s : string) : list string :=
  match s with
  | EmptyString => [EmptyString]
  | String c s' =>
      if Ascii.eqb c sep then EmptyString :: split sep s'
      else match split sep s' with
           | [] => [String c EmptyString]
           | w :: ws => String c w :: ws
           end
  end.

Definition newline : ascii := ascii_of_nat 10.

(** The double-quote character and the one-character string made of it. *)
Definition dquote : ascii := ascii_of_nat 34.
Definition dq : string := String dquote EmptyString.

(** [s.split('\n')] *)
Definition lines (s : string) : list string := split newline s.

Fixpoint lstrip (s : string) : string :=
  match s with
  | EmptyString => EmptyString
  | String c s' => if is_space c then lstrip s' else s
  end.

(** [s.strip()] *)
Definition strip (s : string) : string := rev (lstrip (rev (lstrip s))).

(** [s[1:]] *)
Definition tail (s : string) : string :=
  match s with
  | EmptyString => EmptyString
  | String _ s' => s'
  end.

Fixpoint forallb_str (p : ascii -> bool) (s : string) : bool :=
  match s with
  | EmptyString => true
  | String c s' => p c && forallb_str p s'
  end.

Fixpoint existsb_str (p : ascii -> bool) (s : string) : bool :=
  match s with
  | EmptyString => false
  | String c s' => p c || existsb_str p s'
  end.

(** [s.isdigit()]: non-empty and made of digits only. *)
Definition isdigit (s : string) : bool :=
  match s with
  | EmptyString => false
  | _ => forallb_str is_digit s
  end.

Fixpoint int_acc (s : string) (acc : Z) : Z :=
  match s with
  | EmptyString => acc
  | String c s' => int_acc s' (10 * acc + Z.of_nat (code c - 48))%Z
  end.

(** [int(s)] on a string of decimal digits. *)
Definition int (s : string) : Z := int_acc s 0%Z.

(** [s.replace(a, b)] for one-character [a] and [b]. *)
Fixpoint replace (a b : ascii) (s : string) : string :=
  match s with
  | EmptyString => EmptyString
  | String c s' => String (if Ascii.eqb c a then b else c) (replace a b s')
  end.

(** [sep.join(l)] *)
Fixpoint join (sep : string) (l : list string) : string :=
  match l with
  | [] => EmptyString
  | [x] => x
  | x :: l' => x +:+ sep +:+ join sep l'
  end.

(** [any(m in s for m in markers)] *)
Definition any_in (markers : list string) (s : string) : bool :=
  existsb (fun m => contains m s) markers.

(** [any(s.endswith(e) for e in exts)] *)
Definition any_suffix (exts : list string) (s : string) : bool :=
  existsb (fun e => endswith s e) exts.

(** Truth value of an optional string: [None] and the empty string are
    false. *)
Definition truthy (o : option string) : bool :=
  match o with
  | Some (String _ _) => true
  | _ => false
  end.

End Py.

(** ** The [re] module: a backtracking matcher

    Alternatives are tried left to right and repetitions are greedy, giving
    up one iteration at a time, which is the search order of Python's
    engine.  The patterns transcribed below use no lazy quantifier, no
    back-reference and no look-around, and none of their repeated
    sub-patterns can match the empty string. *)

Module Re.

Inductive regex : Type :=
| Chr (p : ascii -> bool)                      (* one character in a class *)
| Eps                                          (* the empty pattern *)
| Seq (r1 r2 : regex)                          (* r1 r2 *)
| Alt (r1 r2 : regex)                          (* r1|r2 *)
| Rep (r : regex) (lo : nat) (hi : option nat) (* r{lo,hi}, greedy *)
| Group (i : nat) (r : regex)                  (* capturing group number i *)
| Bol                                          (* ^ *)
| Eol.                                         (* $ *)

(** Matcher state: offset in the subject, text still to read, groups. *)
Record mstate := MState {
  pos : nat;
  rest : string;
  caps : list (nat * string)
}.

Fixpoint take (n : nat) (s : string) : string :=
  match n, s with
  | S n', String c s' => String c (take n' s')
  | _, _ => EmptyString
  end.

Fixpoint drop (n : nat) (s : string) : string :=
  match n, s with
  | S n', String _ s' => drop n' s'
  | _, _ => s
  end.

Definition set_cap (i : nat) (from to : mstate) : mstate :=
  MState (pos to) (rest to)
         ((i, take (pos to - pos from) (rest from)) :: caps to).

Definition at_eol (s : string) : bool :=
  match s with
  | EmptyString => true
  | String c EmptyString => Ascii.eqb c Py.newline
  | _ => false
  end.

(** The loop of a greedy repetition [r{lo,hi}]: [body] matches one more
    iteration, [k] is what follows the repetition.  An iteration has to
    consume text, so [fuel] above the length of the text is never used up
    (lemmas [rep_loop_fuel] and [rep_loop_enough_fuel] below). *)
Fixpoint rep_loop (body : mstate -> (mstate -> option mstate) -> option mstate)
  (k : mstate -> option mstate) (fuel lo : nat) (hi : option nat) (st : mstate)
  {struct fuel} : option mstate :=
  let stop := if (lo =? 0)%nat then k st else None in
  match fuel with
  | O => stop
  | S fuel' =>
      match hi with
      | Some O => stop
      | _ =>
          match body st (fun st' =>
                  if (pos st <? pos st')%nat
                  then rep_loop body k fuel' (Nat.pred lo) (option_map Nat.pred hi) st'
                  else None) with
          | Some m => Some m
          | None => stop
          end
      end
  end.

Fixpoint run (r : regex) (st : mstate) (k : mstate -> option mstate)
  {struct r} : option mstate :=
  match r with
  | Chr p =>
      match rest st with
      | String c s' =>
          if p c then k (MState (S (pos st)) s' (caps st)) else None
      | EmptyString => None
      end
  | Eps => k st
  | Seq r1 r2 => run r1 st (fun st' => run r2 st' k)
  | Alt r1 r2 =>
      match run r1 st k with
      | Some m => Some m
      | None => run r2 st k
      end
  | Rep r' lo hi => rep_loop (run r') k (S (String.length (rest st))) lo hi st
  | Group i r' => run r' st (fun st' => k (set_cap i st st'))
  | Bol => if (pos st =? 0)%nat then k st else None
  | Eol => if at_eol (rest st) then k st else None
  end.

(** A match object: [start()], [group()] and the numbered groups. *)
Record rmatch := RMatch {
  m_start : nat;
  m_text : string;
  m_caps : list (nat * string)
}.

Definition m_end (m : rmatch) : nat := (m_start m + String.length (m_text m))%nat.

(** [m.group(i)]: [None] when group [i] took no part in the match. *)
Fixpoint assoc (i : nat) (l : list (nat * string)) : option string :=
  match l with
  | [] => None
  | (j, s) :: l' => if (i =? j)%nat then Some s else assoc i l'
  end.

Definition group (i : nat) (m : rmatch) : option string := assoc i (m_caps m).

(** Match attempt with the pattern starting exactly at offset [p]. *)
Definition match_at (r : regex) (p : nat) (s : string) : option rmatch :=
  match run r (MState p s []) Some with
  | Some st => Some (RMatch p (take (pos st - p) s) (caps st))
  | None => None
  end.

(** [re.match(r, s)] *)
Definition rematch (r : regex) (s : string) : option rmatch := match_at r 0 s.

Fixpoint search_from (r : regex) (p : nat) (s : string) : option rmatch :=
  match match_at r p s with
  | Some m => Some m
  | None =>
      match s with
      | EmptyString => None
      | String _ s' => search_from r (S p) s'
      end
  end.

(** [re.search(r, s)] *)
Definition search (r : regex) (s : string) : option rmatch := search_from r 0 s.

Fixpoint finditer_from (fuel : nat) (r : regex) (p : nat) (s : string)
  : list rmatch :=
  match fuel with
  | O => []
  | S fuel' =>
      match search_from r p s with
      | None => []
      | Some m =>
          let e := if (m_end m =? m_start m)%nat then S (m_end m) else m_end m in
          m :: (if (e - p <=? String.length s)%nat
                then finditer_from fuel' r e (drop (e - p) s)
                else [])
      end
  end.

(** [r.finditer(s)]: the non-overlapping matches, left to right.  Each
    round starts after the previous match, so the fuel is enough (lemma
    [finditer_from_fuel] below). *)
Definition finditer (r : regex) (s : string) : list rmatch :=
  finditer_from (S (String.length s)) r 0 s.

(** *** Pattern notation *)

Definition chr (c : ascii) : regex := Chr (Ascii.eqb c).

Definition chr_ci (c : ascii) : regex :=
  Chr (fun x => Ascii.eqb (Py.lower_char x) (Py.lower_char c)).

Fixpoint lit (s : string) : regex :=
  match s with
  | EmptyString => Eps
  | String c EmptyString => chr c
  | String c s' => Seq (chr c) (lit s')
  end.

(** A literal under the [(?i)] flag. *)
Fixpoint lit_ci (s : string) : regex :=
  match s with
  | EmptyString => Eps
  | String c EmptyString => chr_ci c
  | String c s' => Seq (chr_ci c) (lit_ci s')
  end.

Fixpoint seq (rs : list regex) : regex :=
  match rs with
  | [] => Eps
  | [r] => r
  | r :: rs' => Seq r (seq rs')
  end.

Fixpoint alt (rs : list regex) : regex :=
  match rs with
  | [] => Chr (fun _ => false)
  | [r] => r
  | r :: rs' => Alt r (alt rs')
  end.

Definition star (r : regex) : regex := Rep r 0 None.
Definition plus (r : regex) : regex := Rep r 1 None.
Definition opt (r : regex) : regex := Rep r 0 (Some 1%nat).
Definition times (r : regex) (lo hi : nat) : regex := Rep r lo (Some hi).
Definition exactly (r : regex) (n : nat) : regex := Rep r n (Some n).
Definition at_least (r : regex) (n : nat) : regex := Rep r n None.

(** [c] is one of the characters of [set]. *)
Definition one_of (set : string) (c : ascii) : bool :=
  Py.existsb_str (Ascii.eqb c) set.

(** [\w], [\s], [\d] *)
Definition word (c : ascii) : bool := Py.is_alnum c || one_of "_" c.
Definition space (c : ascii) : bool := Py.is_space c.
Definition digit (c : ascii) : bool := Py.is_digit c.

(** The double quote, as a class. *)
Definition is_dquote (c : ascii) : bool := Ascii.eqb c Py.dquote.

(** [.]: anything but a newline. *)
Definition dot (c : ascii) : bool := negb (Ascii.eqb c Py.newline).

End Re.

(** ** Exceptions

    The result of a computation that can raise: the value it returns, or
    the text [str(e)] of the exception it raises. *)

Inductive outcome (A : Type) : Type :=
| Returns (a : A)
| Raises (e : string).
Arguments Returns {A} a.
Arguments Raises {A} e.

#[global] Instance outcome_ret : MRet outcome := fun A a => Returns a.

#[global] Instance outcome_bind : MBind outcome :=
  fun A B f x =>
    match x with
    | Returns a => f a
    | Raises e => Raises e
    end.

(** ** Data model ([models/schemas.py]) *)

(** The three values a file status can take.  The schema of [PRFileModel]
    sets [use_enum_values], so after validation the field [status] holds
    the plain string of the status ([status_text]) and not the member of
    the enumeration. *)
Inductive PRFileStatus := ADDED | MODIFIED | REMOVED.

Definition status_text (s : PRFileStatus) : string :=
  match s with
  | ADDED => "added"
  | MODIFIED => "modified"
  | REMOVED => "removed"
  end.

(** [str(e)] of the [AttributeError] raised by [.value] on a string. *)
Definition no_value_attribute : string :=
  "'str' object has no attribute 'value'".

(** [file.status.value].  The field holds a string, and a string has no
    attribute [value]: the access raises [AttributeError] whatever the
    status is. *)
Definition status_value (s : PRFileStatus) : outcome string :=
  Raises no_value_attribute.

Record PRFileModel := {
  filename : string;
  status : PRFileStatus;
  additions : Z;
  deletions : Z;
  changes : Z;
  patch : option string
}.

Record DependencyChange := {
  package : string;
  old_version : option string;
  new_version : option string;
  change_type : string;
  dep_risk_level : string
}.

Record SecretDetection := {
  pattern_type : string;
  sd_filename : string;
  line_number : Z;
  sd_severity : string
}.

Record TestSuggestion := {
  target_file : string;
  function_name : option string;
  test_type : string;
  ts_description : string;
  rationale : string;
  sample_stub : option string
}.

Record ReviewChecklistItem := {
  category : string;
  text : string;
  severity : string;
  line_reference : option string
}.

Record PRContext := {
  run_id : string;
  repo_full_name : string;
  pr_number : Z;
  head_sha : string;
  base_sha : string;
  files : list PRFileModel;
  raw_diff : string;
  language_stats : list (string * Z);
  dependency_files : list (string * string);   (* filename -> content, in insertion order *)
  pr_title : string;
  pr_body : option string;
  author : string;
  labels : list string
}.

(** [file.patch] as a condition: [None] and the empty string are false. *)
Definition patch_text (f : PRFileModel) : option string :=
  if Py.truthy (patch f) then patch f else None.

(** [sum(f.additions for f in ctx.files)] *)
Definition sum_additions (fs : list PRFileModel) : Z :=
  fold_right (fun f acc => (additions f + acc)%Z) 0%Z fs.

Definition sum_deletions (fs : list PRFileModel) : Z :=
  fold_right (fun f acc => (deletions f + acc)%Z) 0%Z fs.

(** ** Secret scanner ([services/secret_scanner.py]) *)

Module SecretScanner.
Import Re.

Definition upper_or_digit c := Py.is_upper c || Py.is_digit c.
Definition alnum_or (extra : string) c := Py.is_alnum c || one_of extra c.
Definition quote_or_space c := one_of "'" c || is_dquote c || space c.

(** [self.patterns], in the order the dictionary is written:
    name, compiled pattern, description. *)
Definition patterns : list (string * regex * string) :=
  [ ("aws_access_key",
     seq [lit "AKIA"; exactly (Chr upper_or_digit) 16],
     "AWS Access Key ID");
    ("aws_secret_key",
     exactly (Chr (alnum_or "/+=")) 40,
     "AWS Secret Access Key");
    ("github_token",
     seq [lit "gh"; Chr (one_of "pousr"); lit "_";
          times (Chr (alnum_or "_")) 36 255],
     "GitHub Token");
    ("slack_token",
     seq [lit "xox"; Chr (one_of "baprs"); lit "-";
          Group 1 (times (Chr Py.is_alnum) 10 48)],
     "Slack Token");
    ("private_key",
     seq [lit "-----BEGIN "; plus (Chr Py.is_upper); lit " PRIVATE KEY-----"],
     "Private Key");
    ("api_key",
     seq [lit_ci "api"; opt (Chr (one_of "_-")); lit_ci "key";
          star (Chr quote_or_space); Chr (one_of ":=");
          star (Chr quote_or_space);
          times (Chr (alnum_or "_-")) 16 128],
     "Generic API Key");
    ("password",
     seq [lit_ci "password";
          star (Chr quote_or_space); Chr (one_of ":=");
          star (Chr quote_or_space);
          times (Chr (alnum_or "_-!@#$%^&*()")) 8 128],
     "Password");
    ("jwt_token",
     seq [lit "eyJ"; star (Chr (alnum_or "_-")); lit ".";
          star (Chr (alnum_or "_-")); lit "."; star (Chr (alnum_or "_-"))],
     "JWT Token");
    ("database_url",
     seq [Group 1 (alt [lit_ci "postgres"; lit_ci "mysql"; lit_ci "mongodb"]);
          lit "://"; plus (Chr (alnum_or "_.-")); lit ":";
          plus (Chr (alnum_or "_.-")); lit "@"; plus (Chr (alnum_or "_.-"))],
     "Database Connection String");
    ("email_credentials",
     seq [plus (Chr (alnum_or "._%+-")); lit "@"; plus (Chr (alnum_or ".-"));
          lit "."; at_least (Chr Py.is_alpha) 2; lit ":";
          at_least (Chr (alnum_or "_-!@#$%^&*()")) 6],
     "Email with Password") ].

Definition binary_extensions : list string :=
  [".png"; ".jpg"; ".jpeg"; ".gif"; ".pdf"; ".zip"; ".tar"; ".gz";
   ".exe"; ".dll"; ".so"; ".dylib"; ".bin"; ".dat"; ".db"].

Definition _is_binary_file (fname : string) : bool :=
  Py.any_suffix binary_extensions (Py.lower fname).

Definition safe_markers : list string :=
  ["example"; "test"; "mock"; "fake"; "dummy"; "placeholder";
   "YOUR_API_KEY"; "INSERT_KEY_HERE"; "REPLACE_WITH";
   "xxx"; "yyy"; "zzz"].

Definition _is_safe_line (line fname : string) : bool :=
  let line := Py.strip line in
  match line with
  | EmptyString => true
  | _ =>
      if Py.endswith fname ".py" && Py.startswith line "#" then true
      else if Py.any_suffix [".js"; ".ts"; ".java"; ".go"; ".c"; ".cpp"] fname
              && Py.startswith line "//" then true
      else if Py.startswith line "/*" || Py.startswith line "*"
              || Py.startswith line "*/" then true
      else if Py.endswith fname ".md" || Py.endswith fname ".rst" then true
      else
        let line_lower := Py.lower line in
        Py.any_in safe_markers line_lower
  end.

Definition false_positives : list string :=
  ["password123"; "apikey123"; "secret123";
   "your_api_key"; "your_password"; "your_secret"].

Definition _validate_detection (pattern_name mtext line fname : string) : bool :=
  if existsb (String.eqb (Py.lower mtext)) false_positives then false
  else if String.eqb pattern_name "aws_secret_key"
          && negb (Py.existsb_str Py.is_upper mtext
                   && Py.existsb_str Py.is_lower mtext
                   && Py.existsb_str Py.is_digit mtext) then false
  else if String.eqb pattern_name "jwt_token"
          && negb (length (Py.split "." mtext) =? 3)%nat then false
  else if Py.contains "test" (Py.lower fname)
          && Py.any_in ["test_"; "mock_"; "fake_"; "example_"] (Py.lower mtext)
       then false
  else true.

Definition high_severity : list string :=
  ["aws_access_key"; "aws_secret_key"; "private_key";
   "database_url"; "github_token"].

Definition _get_severity (pattern_name : string) : string :=
  if existsb (String.eqb pattern_name) high_severity then "high" else "medium".

(** The two nested [for] loops over the patterns and their matches on one
    line, shared by [scan_content] and [scan_diff]. *)
Definition scan_line (line fname : string) (line_num : Z) : list SecretDetection :=
  flat_map (fun '(pattern_name, compiled_pattern, description) =>
    flat_map (fun m =>
      if _validate_detection pattern_name (m_text m) line fname
      then [ {| pattern_type := description;
                sd_filename := fname;
                line_number := line_num;
                sd_severity := _get_severity pattern_name |} ]
      else [])
      (finditer compiled_pattern line))
    patterns.

Fixpoint scan_content_lines (ls : list string) (fname : string) (line_num : Z)
  : list SecretDetection :=
  match ls with
  | [] => []
  | line :: ls' =>
      ((if _is_safe_line line fname then [] else scan_line line fname line_num)
       ++ scan_content_lines ls' fname (line_num + 1))%list
  end.

Definition scan_content (content fname : string) : list SecretDetection :=
  if _is_binary_file fname || (1000000 <? Z.of_nat (String.length content))%Z then []
  else scan_content_lines (Py.lines content) fname 1.

(** [re.search(r'\+(\d+)', line)] and [int(match.group(1))] *)
Definition hunk_pattern : regex := seq [lit "+"; Group 1 (plus (Chr digit))].

Definition hunk_target (line : string) : option Z :=
  match search hunk_pattern line with
  | Some m => option_map Py.int (group 1 m)
  | None => None
  end.

(** One iteration of the loop of [scan_diff] over the state
    [(line_num, detections)]. *)
Definition scan_diff_step (fname : string)
  (st : Z * list SecretDetection) (line : string) : Z * list SecretDetection :=
  let '(line_num, detections) := st in
  if Py.startswith line "@@" then
    match hunk_target line with
    | Some c => ((c - 1)%Z, detections)
    | None => (line_num, detections)
    end
  else if Py.startswith line "+" && negb (Py.startswith line "+++") then
    let line_num := (line_num + 1)%Z in
    let content := Py.tail line in
    if _is_safe_line content fname then (line_num, detections)
    else (line_num, (detections ++ scan_line content fname line_num)%list)
  else if negb (Py.startswith line "-") then ((line_num + 1)%Z, detections)
  else (line_num, detections).

Definition scan_diff (diff_content fname : string) : list SecretDetection :=
  if _is_binary_file fname then []
  else snd (fold_left (scan_diff_step fname) (Py.lines diff_content) (0%Z, [])).

End SecretScanner.

Definition nl : string := String Py.newline EmptyString.

(** ** Risk scorer ([services/risk_scorer.py]) *)

Module RiskScorer.

(** An element of the [dependency_changes] factor: the scorer tests
    [isinstance(d, dict)], so the embedding keeps apart a plain dictionary
    and a [DependencyChange] model object. *)
Inductive dep_item :=
| AsDict (d : gmap string string)
| AsModel (c : DependencyChange).

(** The [factors] dictionary.  A field is [None] when its key is absent,
    and is then read through [factors.get(key, default)]. *)
Record RiskFactors := {
  secrets_count : option Z;
  total_additions : option Z;
  dependency_changes : option (list dep_item);
  security_files_changed : option Z;
  large_files_changed : option Z;
  total_files : option Z;
  binary_files_changed : option Z;
  database_files_changed : option Z;
  security_config_files_changed : option Z;
  deployment_files_changed : option Z;
  large_deletions : option Z
}.

Definition base_score : Z := 0.
Definition max_score : Z := 100.

(** [factors.get(key, 0)] *)
Definition get0 (v : option Z) : Z := default 0%Z v.

(** [isinstance(d, dict) and d.get('risk_level') == 'high'] *)
Definition is_high_risk_dict (d : dep_item) : bool :=
  match d with
  | AsDict m => bool_decide (m !! "risk_level" = Some "high")
  | AsModel _ => false
  end.

(** [if cond: score += pts] *)
Definition add_if (cond : bool) (pts score : Z) : Z :=
  if cond then (score + pts)%Z else score.

(** The sum of the points before normalisation. *)
Definition raw_score (factors : RiskFactors) : Z :=
  let score := base_score in
  let score := add_if (0 <? get0 (secrets_count factors))%Z 25 score in
  let score := add_if (1000 <? get0 (total_additions factors))%Z 10 score in
  let high_risk_deps :=
    length (List.filter is_high_risk_dict
                        (default [] (dependency_changes factors))) in
  let score := add_if (0 <? high_risk_deps)%nat 15 score in
  let score := add_if (0 <? get0 (security_files_changed factors))%Z 10 score in
  let score := add_if (0 <? get0 (large_files_changed factors))%Z 10 score in
  let score := add_if (20 <? get0 (total_files factors))%Z 5 score in
  let score := add_if (0 <? get0 (binary_files_changed factors))%Z 5 score in
  let score := add_if (0 <? get0 (database_files_changed factors))%Z 8 score in
  let score := add_if (0 <? get0 (security_config_files_changed factors))%Z 12 score in
  let score := add_if (0 <? get0 (deployment_files_changed factors))%Z 7 score in
  let score := add_if (500 <? get0 (large_deletions factors))%Z 8 score in
  score.

Definition calculate_risk_score (factors : RiskFactors) : Z :=
  Z.min max_score (Z.max 0 (raw_score factors)).

End RiskScorer.

(** ** Dependency scanner ([services/dependency_scanner.py]) *)

Module DependencyScanner.
Import Re.

Definition high_risk_packages : list string :=
  ["cryptography"; "pyjwt"; "requests"; "urllib3"; "flask"; "django";
   "sqlalchemy"; "psycopg2"; "pymongo"; "redis"; "celery";
   "express"; "axios"; "request"; "lodash"; "moment"; "jquery";
   "react"; "vue"; "angular"; "webpack"; "babel";
   "openssl"; "ssh"; "ssl"; "tls"; "oauth"; "jwt"].

Definition _assess_package_risk (package change_type : string) : string :=
  let package_lower := Py.lower package in
  if Py.any_in high_risk_packages package_lower then "high"
  else if Py.any_in ["auth"; "crypto"; "security"; "ssl"; "tls"; "jwt"; "oauth"]
                    package_lower then "medium"
  else if String.eqb change_type "downgraded" then "medium"
  else "low".

(** [[int(x) for x in version.split('.') if x.isdigit()]] *)
Definition version_parts (version : string) : list Z :=
  map Py.int (List.filter Py.isdigit (Py.split "." version)).

(** [parts.extend([0] * (max_len - len(parts)))] *)
Definition pad (max_len : nat) (parts : list Z) : list Z :=
  (parts ++ repeat 0%Z (max_len - length parts))%list.

(** Python's ordering of two lists of integers: the first position where
    they differ decides, a proper prefix is smaller. *)
Fixpoint list_compare (a b : list Z) : comparison :=
  match a, b with
  | [], [] => Eq
  | [], _ :: _ => Lt
  | _ :: _, [] => Gt
  | x :: a', y :: b' =>
      match (x ?= y)%Z with
      | Eq => list_compare a' b'
      | c => c
      end
  end.

Definition _determine_version_change_type (old_version new_version : string)
  : string :=
  let old_parts := version_parts old_version in
  let new_parts := version_parts new_version in
  let max_len := Nat.max (length old_parts) (length new_parts) in
  let old_parts := pad max_len old_parts in
  let new_parts := pad max_len new_parts in
  match list_compare new_parts old_parts with
  | Gt => "upgraded"
  | Lt => "downgraded"
  | Eq => "modified"
  end.

Definition name_char (c : ascii) : bool := Py.is_alnum c || one_of "_-" c.

(** [^([a-zA-Z0-9_-]+)([><=~!]+)(.+)$] *)
Definition requirement_pattern : regex :=
  seq [Bol; Group 1 (plus (Chr name_char));
       Group 2 (plus (Chr (one_of "><=~!")));
       Group 3 (plus (Chr dot)); Eol].

(** [^[a-zA-Z0-9_-]+$] *)
Definition bare_name_pattern : regex :=
  seq [Bol; plus (Chr name_char); Eol].

(** One iteration of the loop of [_parse_python_packages]. *)
Definition parse_python_line (packages : gmap string string) (line : string)
  : gmap string string :=
  let line := Py.strip line in
  if String.eqb line EmptyString || Py.startswith line "#" then packages
  else
    match rematch requirement_pattern line with
    | Some m =>
        match group 1 m, group 3 m with
        | Some package, Some version => <[package := Py.strip version]> packages
        | _, _ => packages
        end
    | None =>
        match rematch bare_name_pattern line with
        | Some _ => <[line := "latest"]> packages
        | None => packages
        end
    end.

Definition _parse_python_packages (lines : list string) : gmap string string :=
  fold_left parse_python_line lines ∅.

(** [next((f for f in ctx.files if f.filename == filename), None)] followed
    by the test [if not pr_file or not pr_file.patch]. *)
Definition patch_of (fname : string) (ctx : PRContext) : option string :=
  match List.find (fun f => String.eqb (filename f) fname) (files ctx) with
  | Some pr_file => patch_text pr_file
  | None => None
  end.

Definition is_added_line (line : string) : bool :=
  Py.startswith line "+" && negb (Py.startswith line "+++").

Definition is_removed_line (line : string) : bool :=
  negb (is_added_line line) &&
  Py.startswith line "-" && negb (Py.startswith line "---").

Definition added_lines (p : string) : list string :=
  map (fun line => Py.strip (Py.tail line)) (List.filter is_added_line (Py.lines p)).

Definition removed_lines (p : string) : list string :=
  map (fun line => Py.strip (Py.tail line)) (List.filter is_removed_line (Py.lines p)).

(** The body of the loop [for package in all_packages]. *)
Definition package_change (added_packages removed_packages : gmap string string)
  (package : string) : list DependencyChange :=
  let old_version := removed_packages !! package in
  let new_version := added_packages !! package in
  if Py.truthy old_version && Py.truthy new_version then
    let change_type :=
      _determine_version_change_type (default EmptyString old_version)
                                     (default EmptyString new_version) in
    [ {| package := package; old_version := old_version;
         new_version := new_version; change_type := change_type;
         dep_risk_level := _assess_package_risk package change_type |} ]
  else if Py.truthy new_version && negb (Py.truthy old_version) then
    [ {| package := package; old_version := None;
         new_version := new_version; change_type := "added";
         dep_risk_level := _assess_package_risk package "added" |} ]
  else if Py.truthy old_version && negb (Py.truthy new_version) then
    [ {| package := package; old_version := old_version;
         new_version := None; change_type := "removed";
         dep_risk_level := _assess_package_risk package "removed" |} ]
  else [].

Definition _analyze_python_requirements (fname content : string) (ctx : PRContext)
  : list DependencyChange :=
  match patch_of fname ctx with
  | None => []
  | Some p =>
      let added_packages := _parse_python_packages (added_lines p) in
      let removed_packages := _parse_python_packages (removed_lines p) in
      let all_packages : gset string := dom added_packages ∪ dom removed_packages in
      flat_map (package_change added_packages removed_packages)
               (elements all_packages)
  end.

(** The three remaining handlers share one shape: keep the patch lines that
    pass a test, search them for a two-group pattern and report the
    captured package as added. *)
Definition added_only (keep : string -> bool) (pattern : regex)
  (accept : string -> bool) (fname : string) (ctx : PRContext)
  : list DependencyChange :=
  match patch_of fname ctx with
  | None => []
  | Some p =>
      flat_map (fun line =>
        if keep line then
          match search pattern line with
          | Some m =>
              match group 1 m, group 2 m with
              | Some package, Some version =>
                  if accept package then
                    [ {| package := package; old_version := None;
                         new_version := Some version; change_type := "added";
                         dep_risk_level := _assess_package_risk package "added" |} ]
                  else []
              | _, _ => []
              end
          | None => []
          end
        else [])
        (Py.lines p)
  end.

Definition not_quote (c : ascii) : bool := negb (is_dquote c).
Definition not_space (c : ascii) : bool := negb (space c).

(** The pattern of [_analyze_package_json]: a double-quoted name, a colon,
    optional blanks and a double-quoted version; the two quoted texts are
    the groups [([^Q]+)], with Q the double quote. *)
Definition package_json_pattern : regex :=
  seq [Chr is_dquote; Group 1 (plus (Chr not_quote)); Chr is_dquote; lit ":";
       star (Chr space); Chr is_dquote; Group 2 (plus (Chr not_quote));
       Chr is_dquote].

Definition _analyze_package_json (fname content : string) (ctx : PRContext)
  : list DependencyChange :=
  added_only
    (fun line => Py.startswith line "+" && Py.contains Py.dq line && Py.contains ":" line)
    package_json_pattern
    (fun package => negb (Py.startswith package "_") && negb (Py.contains "/" package))
    fname ctx.

(** The pattern of [_analyze_python_pipfile]: [([a-zA-Z0-9_-]+)\s*=\s*]
    followed by a double-quoted version [([^Q]+)]. *)
Definition pipfile_pattern : regex :=
  seq [Group 1 (plus (Chr name_char)); star (Chr space); lit "=";
       star (Chr space); Chr is_dquote; Group 2 (plus (Chr not_quote));
       Chr is_dquote].

Definition _analyze_python_pipfile (fname content : string) (ctx : PRContext)
  : list DependencyChange :=
  added_only
    (fun line => Py.startswith line "+" && Py.contains "=" line)
    pipfile_pattern (fun _ => true) fname ctx.

(** [require\s+([^\s]+)\s+(v[^\s]+)] *)
Definition go_mod_pattern : regex :=
  seq [lit "require"; plus (Chr space); Group 1 (plus (Chr not_space));
       plus (Chr space); Group 2 (seq [lit "v"; plus (Chr not_space)])].

Definition _analyze_go_mod (fname content : string) (ctx : PRContext)
  : list DependencyChange :=
  added_only
    (fun line => Py.startswith line "+" && Py.contains "require" line)
    go_mod_pattern (fun _ => true) fname ctx.

Definition analyze_dependency_file (fname content : string) (ctx : PRContext)
  : list DependencyChange :=
  if Py.endswith fname "requirements.txt" || Py.endswith fname "requirements-dev.txt"
  then _analyze_python_requirements fname content ctx
  else if String.eqb fname "package.json"
  then _analyze_package_json fname content ctx
  else if String.eqb fname "Pipfile" || String.eqb fname "pyproject.toml"
  then _analyze_python_pipfile fname content ctx
  else if String.eqb fname "go.mod" || String.eqb fname "go.sum"
  then _analyze_go_mod fname content ctx
  else [].

End DependencyScanner.


(** ** Stage results ([AgentResult]) and the exception oracle *)

(** Values stored in a stage payload ([Dict[str, Any]]). *)
Inductive pval :=
| PInt (z : Z)
| PStrs (l : list string)
| PChangelog (m : gmap string (list string))
| PSecrets (l : list SecretDetection)
| PDeps (l : list DependencyChange)
| PSuggestions (l : list TestSuggestion)
| PChecklist (l : list ReviewChecklistItem)
| PCounts (m : gmap string Z)
| PError (e : string).

Record AgentResult := {
  name : string;
  payload : gmap string pval;
  warnings : list string
}.

(** [AbstractAgent._create_result] *)
Definition _create_result (agent : string) (pl : gmap string pval)
  (ws : list string) : AgentResult :=
  {| name := agent; payload := pl; warnings := ws |}.

(** What goes wrong at run time beyond the statements embedded here.
    [Some e] says that the [try] block of the stage raises an exception
    whose [str] is [e] and that does not come from those statements: the
    limit of the interpreter on the digits [int] converts, or the lack of
    memory, are such exceptions.  The exceptions the statements themselves
    raise are not in the oracle: they are computed ([outcome]). *)
Record Faults := {
  repo_scanner_exc : option string;
  risk_security_exc : option string;
  test_synthesizer_exc : option string;
  reviewer_exc : option string
}.

Definition no_faults : Faults :=
  {| repo_scanner_exc := None; risk_security_exc := None;
     test_synthesizer_exc := None; reviewer_exc := None |}.

(** A [try] block under the oracle: the exception of the oracle, if any,
    and the outcome of the statements otherwise. *)
Definition try_block {A} (exc : option string) (body : outcome A) : outcome A :=
  match exc with
  | Some e => Raises e
  | None => body
  end.

(** [len(l)] as a Python integer. *)
Definition len {A} (l : list A) : Z := Z.of_nat (length l).

(** ** Change scanner ([agents/repo_scanner.py])

    The summary, the complexity flags and the hotspots of this stage are
    narrative outputs built from [DiffParser.parse_diff]; they are not part
    of this development, which keeps the changelog and the statistics. *)

Module RepoScannerAgent.

Definition _is_test_file (fname : string) : bool :=
  Py.any_in ["test_"; "_test."; "tests/"; "/test/"; ".test.";
             "spec_"; "_spec."; "specs/"; "/spec/";
             ".spec."; "__tests__/"; "/*.test.*"] (Py.lower fname).

Definition _is_doc_file (fname : string) : bool :=
  Py.any_suffix [".md"; ".rst"; ".txt"; ".pdf"; ".doc"; ".docx"] (Py.lower fname)
  || Py.any_in ["docs/"; "doc/"; "documentation/"] (Py.lower fname).

Definition _is_code_file (fname : string) : bool :=
  Py.any_suffix [".py"; ".js"; ".ts"; ".java"; ".go"; ".rs"; ".cpp"; ".c";
                 ".rb"; ".php"; ".swift"; ".kt"; ".scala"; ".cs"] (Py.lower fname).

(** The five lists of the [changelog] dictionary. *)
Record buckets := {
  features : list string;
  fixes : list string;
  refactors : list string;
  docs : list string;
  tests : list string
}.

(** [changelog[key].append(entry)] *)
Definition add_feature (e : string) (b : buckets) : buckets :=
  {| features := (features b ++ [e])%list; fixes := fixes b;
     refactors := refactors b; docs := docs b; tests := tests b |}.
Definition add_fix (e : string) (b : buckets) : buckets :=
  {| features := features b; fixes := (fixes b ++ [e])%list;
     refactors := refactors b; docs := docs b; tests := tests b |}.
Definition add_refactor (e : string) (b : buckets) : buckets :=
  {| features := features b; fixes := fixes b;
     refactors := (refactors b ++ [e])%list; docs := docs b; tests := tests b |}.
Definition add_doc (e : string) (b : buckets) : buckets :=
  {| features := features b; fixes := fixes b;
     refactors := refactors b; docs := (docs b ++ [e])%list; tests := tests b |}.
Definition add_test (e : string) (b : buckets) : buckets :=
  {| features := features b; fixes := fixes b;
     refactors := refactors b; docs := docs b; tests := (tests b ++ [e])%list |}.

(** The keyword tests on the PR title and body. *)
Definition categorize_text (ctx : PRContext) (b : buckets) : buckets :=
  let pr_text :=
    Py.lower (pr_title ctx +:+ " " +:+ default EmptyString (pr_body ctx)) in
  let b := if Py.any_in ["add"; "implement"; "feature"; "new"] pr_text
           then add_feature ("Added new functionality based on PR title: "
                             +:+ pr_title ctx) b
           else b in
  let b := if Py.any_in ["fix"; "bug"; "issue"; "resolve"] pr_text
           then add_fix ("Fixed issue: " +:+ pr_title ctx) b
           else b in
  let b := if Py.any_in ["refactor"; "cleanup"; "reorganize"; "improve"] pr_text
           then add_refactor ("Code refactoring: " +:+ pr_title ctx) b
           else b in
  b.

(** One iteration of the loop over [ctx.files].  Each of the three
    branches starts by reading [file.status.value]. *)
Definition categorize_file (b : buckets) (file : PRFileModel) : outcome buckets :=
  let fname := Py.lower (filename file) in
  if _is_test_file fname then
    v ← status_value (status file);
    mret (if String.eqb v "added"
          then add_test ("Added test file: " +:+ filename file) b
          else if (deletions file <? additions file)%Z
          then add_test ("Enhanced tests in: " +:+ filename file) b
          else b)
  else if _is_doc_file fname then
    v ← status_value (status file);
    mret (if String.eqb v "added"
          then add_doc ("Added documentation: " +:+ filename file) b
          else if (0 <? additions file)%Z
          then add_doc ("Updated documentation: " +:+ filename file) b
          else b)
  else
    v ← status_value (status file);
    mret (if String.eqb v "added" && _is_code_file fname
          then add_feature ("Added new file: " +:+ filename file) b
          else b).

(** The loop [for file in ctx.files]: it stops at the first iteration that
    raises. *)
Fixpoint categorize_files (b : buckets) (fs : list PRFileModel) : outcome buckets :=
  match fs with
  | [] => mret b
  | file :: fs' => b' ← categorize_file b file; categorize_files b' fs'
  end.

Definition empty_buckets : buckets :=
  {| features := []; fixes := []; refactors := []; docs := []; tests := [] |}.

(** [{k: v for k, v in changelog.items() if v}] *)
Definition non_empty (b : buckets) : gmap string (list string) :=
  list_to_map
    (List.filter (fun kv => negb (Nat.eqb (length (snd kv)) 0))
       [("features", features b); ("fixes", fixes b);
        ("refactors", refactors b); ("docs", docs b); ("tests", tests b)]).

Definition _categorize_changes (ctx : PRContext)
  : outcome (gmap string (list string)) :=
  b ← categorize_files (categorize_text ctx empty_buckets) (files ctx);
  mret (non_empty b).

Definition diff_stats (ctx : PRContext) : gmap string Z :=
  {[ "total_files" := len (files ctx);
     "total_additions" := sum_additions (files ctx);
     "total_deletions" := sum_deletions (files ctx) ]}.

(** The [try] block of [run]. *)
Definition analysis (fl : Faults) (ctx : PRContext) : outcome (gmap string pval) :=
  try_block (repo_scanner_exc fl)
    (changelog ← _categorize_changes ctx;
     mret {[ "changelog" := PChangelog changelog;
             "diff_stats" := PCounts (diff_stats ctx) ]}).

Definition run (fl : Faults) (ctx : PRContext) : AgentResult :=
  match analysis fl ctx with
  | Returns payload => _create_result "repo_scanner" payload []
  | Raises e =>
      _create_result "repo_scanner"
        {[ "changelog" := PChangelog ∅;
           "diff_stats" := PCounts (diff_stats ctx) ]}
        ["Error during repository scanning: " +:+ e]
  end.

End RepoScannerAgent.

(** ** Risk & Security stage ([agents/risk_security.py]) *)

Module RiskSecurityAgent.

Definition _is_security_file (fname : string) : bool :=
  Py.any_in ["security"; "sec_"; "crypto"; "encryption"; "decrypt";
             "certificate"; "cert"; "ssl"; "tls"; "key"; "token";
             "password"; "passwd"; "secret"; "private"] (Py.lower fname).

Definition _is_auth_file (fname : string) : bool :=
  Py.any_in ["auth"; "login"; "logout"; "signin"; "signup";
             "permission"; "role"; "access"; "oauth"; "jwt";
             "session"; "middleware/auth"; "guards/"; "decorators/auth"]
            (Py.lower fname).

Definition _is_config_file (fname : string) : bool :=
  Py.any_in [".env"; ".ini"; ".conf"; ".config"; "settings";
             ".yml"; ".yaml"; ".json"; "docker"; "makefile"] (Py.lower fname).

Definition _is_database_file (fname : string) : bool :=
  Py.any_in ["migration"; "migrate"; "schema"; "database"; "db_";
             ".sql"; "models/"; "entity/"; "repository/"] (Py.lower fname).

Definition _is_deployment_file (fname : string) : bool :=
  Py.any_in ["dockerfile"; "docker-compose"; ".github/workflows";
             "deploy"; "deployment"; "terraform"; ".tf";
             "kubernetes"; "k8s"; "helm"; "ansible"] (Py.lower fname).

Definition _is_binary_file (fname : string) : bool :=
  Py.any_suffix [".png"; ".jpg"; ".jpeg"; ".gif"; ".pdf"; ".zip"; ".tar"; ".gz";
                 ".exe"; ".dll"; ".so"; ".dylib"; ".bin"] (Py.lower fname).

Definition _scan_for_secrets (ctx : PRContext) : list SecretDetection :=
  (flat_map (fun file =>
     match patch_text file with
     | Some p =>
         if _is_binary_file (filename file) then []
         else SecretScanner.scan_diff p (filename file)
     | None => []
     end) (files ctx)
   ++
   flat_map (fun '(fname, content) =>
     match content with
     | EmptyString => []
     | _ => SecretScanner.scan_content content fname
     end) (dependency_files ctx))%list.

(** The loop of [_analyze_dependency_changes].  Its inner [try] logs an
    exception of [analyze_dependency_file] and goes on; no statement of
    that function raises (the one conversion to integers has a handler of
    its own), so the handler adds nothing to the embedding. *)
Definition _analyze_dependency_changes (ctx : PRContext)
  : list DependencyChange :=
  flat_map (fun '(fname, content) =>
    match content with
    | EmptyString => []
    | _ => DependencyScanner.analyze_dependency_file fname content ctx
    end) (dependency_files ctx).

Definition security_keywords : list string :=
  ["password"; "secret"; "key"; "token"; "auth"; "security"; "ssl"; "tls"].

Definition _analyze_security_implications (ctx : PRContext) : list string :=
  let security_files := List.filter (fun f => _is_security_file (filename f)) (files ctx) in
  let auth_files := List.filter (fun f => _is_auth_file (filename f)) (files ctx) in
  let config_files := List.filter (fun f => _is_config_file (filename f)) (files ctx) in
  let security_config_files :=
    map filename
      (List.filter (fun f =>
         match patch_text f with
         | Some p => Py.any_in security_keywords (Py.lower p)
         | None => false
         end) config_files) in
  let large_deletions := List.filter (fun f => (100 <? deletions f)%Z) (files ctx) in
  let db_files := List.filter (fun f => _is_database_file (filename f)) (files ctx) in
  let deploy_files := List.filter (fun f => _is_deployment_file (filename f)) (files ctx) in
  ((match security_files with
    | [] => []
    | _ => ["Security-sensitive files modified: " +:+ pretty (length security_files)
            +:+ " files"]
    end) ++
   (match auth_files with
    | [] => []
    | _ => ["Authentication/authorization files modified: "
            +:+ pretty (length auth_files) +:+ " files"]
    end) ++
   (match security_config_files with
    | [] => []
    | _ => ["Security configuration changes detected in: "
            +:+ Py.join ", " security_config_files]
    end) ++
   (match large_deletions with
    | [] => []
    | _ => ["Large deletions detected: " +:+ pretty (length large_deletions)
            +:+ " files with significant content removal"]
    end) ++
   (match db_files with
    | [] => []
    | _ => ["Database/migration files modified: " +:+ pretty (length db_files)
            +:+ " files"]
    end) ++
   (match deploy_files with
    | [] => []
    | _ => ["Deployment configuration changes: " +:+ pretty (length deploy_files)
            +:+ " files"]
    end))%list.

(** The dictionary handed to the scorer: five keys, the list of
    [DependencyChange] objects as it is. *)
Definition risk_factors_for (ctx : PRContext)
  (secrets_detected : list SecretDetection)
  (dependency_changes : list DependencyChange) : RiskScorer.RiskFactors :=
  {| RiskScorer.secrets_count := Some (len secrets_detected);
     RiskScorer.total_additions := Some (sum_additions (files ctx));
     RiskScorer.dependency_changes :=
       Some (map RiskScorer.AsModel dependency_changes);
     RiskScorer.security_files_changed :=
       Some (len (List.filter (fun f => _is_security_file (filename f)) (files ctx)));
     RiskScorer.large_files_changed :=
       Some (len (List.filter (fun f => (200 <? additions f + deletions f)%Z) (files ctx)));
     RiskScorer.total_files := None;
     RiskScorer.binary_files_changed := None;
     RiskScorer.database_files_changed := None;
     RiskScorer.security_config_files_changed := None;
     RiskScorer.deployment_files_changed := None;
     RiskScorer.large_deletions := None |}.

Definition high_risk (ds : list DependencyChange) : list DependencyChange :=
  List.filter (fun d => String.eqb (dep_risk_level d) "high") ds.

Definition narrative (ctx : PRContext) (secrets_detected : list SecretDetection)
  (dependency_changes : list DependencyChange) : list string :=
  ((match secrets_detected with
    | [] => []
    | _ => ["Potential secrets detected: " +:+ pretty (length secrets_detected)
            +:+ " occurrences"]
    end) ++
   (match high_risk dependency_changes with
    | [] => []
    | hs => ["High-risk dependency changes: " +:+ pretty (length hs) +:+ " packages"]
    end) ++
   _analyze_security_implications ctx)%list.

(** The fallback of the [except] branch. *)
Definition basic_risk (ctx : PRContext) : Z :=
  Z.min 100 (len (files ctx) * 5 + sum_additions (files ctx) / 100).

(** The [try] block of [run]: none of its statements raises. *)
Definition analysis (fl : Faults) (ctx : PRContext) : outcome (gmap string pval) :=
  try_block (risk_security_exc fl)
    (let secrets_detected := _scan_for_secrets ctx in
     let dependency_changes := _analyze_dependency_changes ctx in
     let risk_score :=
       RiskScorer.calculate_risk_score
         (risk_factors_for ctx secrets_detected dependency_changes) in
     mret {[ "risk_score" := PInt risk_score;
             "risk_factors" := PStrs (narrative ctx secrets_detected dependency_changes);
             "secrets_detected" := PSecrets secrets_detected;
             "dependency_changes" := PDeps dependency_changes;
             "security_analysis" :=
               PCounts {[ "secrets_count" := len secrets_detected;
                          "high_risk_dependencies" := len (high_risk dependency_changes);
                          "security_files_modified" :=
                            len (List.filter (fun f => _is_security_file (filename f))
                                             (files ctx)) ]} ]}).

Definition run (fl : Faults) (ctx : PRContext) : AgentResult :=
  match analysis fl ctx with
  | Returns payload => _create_result "risk_security" payload []
  | Raises e =>
      _create_result "risk_security"
        {[ "risk_score" := PInt (basic_risk ctx);
           "risk_factors" := PStrs ["Unable to complete full security analysis"];
           "secrets_detected" := PSecrets [];
           "dependency_changes" := PDeps [];
           "security_analysis" := PError e ]}
        ["Error during security analysis: " +:+ e]
  end.

End RiskSecurityAgent.

(** ** Test suggestion synthesizer ([agents/test_synthesizer.py]) *)

Module TestSynthesizerAgent.
Import Re.

Definition sp : regex := Chr space.
Definition w : regex := Chr word.
Definition not_rparen (c : ascii) : bool := negb (one_of ")" c).

(** [self.function_patterns], keyed by file extension. *)
Definition function_patterns : gmap string regex :=
  {[ "py" :=    (* ^\s*def\s+(\w+)\s*\( *)
       seq [Bol; star sp; lit "def"; plus sp; Group 1 (plus w); star sp; lit "("];
     "js" :=    (* ^\s*(?:function\s+(\w+)|(\w+)\s*[:=]\s*(?:function|\([^)]*\)\s*=>)) *)
       seq [Bol; star sp;
            alt [seq [lit "function"; plus sp; Group 1 (plus w)];
                 seq [Group 2 (plus w); star sp; Chr (one_of ":="); star sp;
                      alt [lit "function";
                           seq [lit "("; star (Chr not_rparen); lit ")";
                                star sp; lit "=>"]]]]];
     "java" :=  (* ^\s*(?:public|private|protected)?\s*(?:static\s+)?(?:\w+\s+)*(\w+)\s*\( *)
       seq [Bol; star sp;
            opt (alt [lit "public"; lit "private"; lit "protected"]); star sp;
            opt (seq [lit "static"; plus sp]);
            star (seq [plus w; plus sp]);
            Group 1 (plus w); star sp; lit "("];
     "go" :=    (* ^\s*func\s+(\w+)\s*\( *)
       seq [Bol; star sp; lit "func"; plus sp; Group 1 (plus w); star sp; lit "("];
     "rs" :=    (* ^\s*(?:pub\s+)?fn\s+(\w+)\s*\( *)
       seq [Bol; star sp; opt (seq [lit "pub"; plus sp]); lit "fn"; plus sp;
            Group 1 (plus w); star sp; lit "("] ]}.

(** The dictionaries built by [_extract_functions_from_patch]. *)
Record function_info := {
  fi_name : string;
  fi_change_type : string;
  fi_line : string
}.

(** [match.group(1) or match.group(2)] *)
Definition group1_or_group2 (m : rmatch) : option string :=
  if Py.truthy (group 1 m) then group 1 m else group 2 m.

Definition _extract_functions_from_patch (p ext : string) : list function_info :=
  match function_patterns !! ext with
  | None => []
  | Some pattern =>
      flat_map (fun line =>
        if Py.startswith line "+" || Py.startswith line "-" then
          let change_type := if Py.startswith line "+" then "added" else "removed" in
          let content := Py.tail line in
          match search pattern content with
          | Some m =>
              match group1_or_group2 m with
              | Some function_name =>
                  if Py.truthy (Some function_name)
                     && negb (Py.startswith function_name "_")
                  then [ {| fi_name := function_name;
                            fi_change_type := change_type;
                            fi_line := Py.strip content |} ]
                  else []
              | None => []
              end
          | None => []
          end
        else [])
        (Py.lines p)
  end.

Definition _has_numeric_parameters (function_line : string) : bool :=
  Py.any_in ["int"; "float"; "number"; "count"; "size"; "length"; "index"]
            (Py.lower function_line).

Definition _has_string_parameters (function_line : string) : bool :=
  Py.any_in ["str"; "string"; "text"; "name"; "message"; "path"]
            (Py.lower function_line).

Definition _has_collection_parameters (function_line : string) : bool :=
  Py.any_in ["list"; "array"; "dict"; "map"; "set"; "collection"]
            (Py.lower function_line).

Definition positive_case (fname function_name : string) : TestSuggestion :=
  {| target_file := fname;
     function_name := Some function_name;
     test_type := "positive";
     ts_description := "Test " +:+ function_name +:+ " with valid inputs";
     rationale := "Ensure function works correctly with expected inputs";
     sample_stub := Some ("test_" +:+ function_name +:+ "_valid_input()") |}.

Definition negative_case (fname function_name : string) : TestSuggestion :=
  {| target_file := fname;
     function_name := Some function_name;
     test_type := "negative";
     ts_description := "Test " +:+ function_name +:+ " with invalid inputs";
     rationale := "Verify proper error handling for invalid inputs";
     sample_stub := Some ("test_" +:+ function_name +:+ "_invalid_input()") |}.

Definition _generate_function_test_suggestions
  (fname function_name change_type function_line : string) : list TestSuggestion :=
  [positive_case fname function_name; negative_case fname function_name]
  ++ (if _has_numeric_parameters function_line then
        [ {| target_file := fname;
             function_name := Some function_name;
             test_type := "boundary";
             ts_description := "Test " +:+ function_name +:+ " with boundary values";
             rationale := "Numeric parameters should be tested with min/max/zero values";
             sample_stub := Some ("test_" +:+ function_name +:+ "_boundary_values()") |} ]
      else [])
  ++ (if _has_string_parameters function_line then
        [ {| target_file := fname;
             function_name := Some function_name;
             test_type := "boundary";
             ts_description := "Test " +:+ function_name +:+ " with empty/null strings";
             rationale := "String parameters should be tested with empty and null values";
             sample_stub := Some ("test_" +:+ function_name +:+ "_empty_strings()") |} ]
      else [])
  ++ (if _has_collection_parameters function_line then
        [ {| target_file := fname;
             function_name := Some function_name;
             test_type := "boundary";
             ts_description := "Test " +:+ function_name +:+ " with empty collections";
             rationale := "Collection parameters should be tested with empty lists/arrays";
             sample_stub := Some ("test_" +:+ function_name +:+ "_empty_collections()") |} ]
      else []).

Definition pattern_suggestion (fname kind descr why stub : string) : TestSuggestion :=
  {| target_file := fname; function_name := None; test_type := kind;
     ts_description := descr; rationale := why; sample_stub := Some stub |}.

Definition _analyze_patch_patterns (fname p : string) : list TestSuggestion :=
  let low := Py.lower p in
  (if Py.any_in ["try:"; "except:"; "catch"; "throw"; "error"] low then
     [pattern_suggestion fname "negative"
        "Test error handling and exception cases"
        "Code contains error handling that should be tested"
        "test_error_handling()"]
   else [])
  ++ (if Py.any_in ["select"; "insert"; "update"; "delete"; "query"] low then
        [pattern_suggestion fname "integration"
           "Test database operations with mocked/test database"
           "Database operations require integration testing"
           "test_database_operations()"]
      else [])
  ++ (if Py.any_in ["request"; "response"; "api"; "http"; "fetch"] low then
        [pattern_suggestion fname "integration"
           "Test API interactions with mocked responses"
           "External API calls should be tested with mocked responses"
           "test_api_interactions()"]
      else [])
  ++ (if Py.any_in ["file"; "read"; "write"; "open"; "save"] low then
        [pattern_suggestion fname "integration"
           "Test file operations with temporary files"
           "File operations should be tested with controlled file system state"
           "test_file_operations()"]
      else [])
  ++ (if Py.any_in ["validate"; "check"; "verify"; "assert"] low then
        [pattern_suggestion fname "positive"
           "Test validation logic with various input scenarios"
           "Validation logic requires comprehensive input testing"
           "test_validation_logic()"]
      else []).

(** [file.filename.split('.')[-1] if '.' in file.filename else ''] *)
Definition extension (fname : string) : string :=
  if Py.contains "." fname then List.last (Py.split "." fname) EmptyString
  else EmptyString.

(** The loop [for function_info in functions] of [_analyze_file_for_tests]:
    the suggestions it has put in the local list when it ends. *)
Definition function_suggestions (file : PRFileModel) (p : string)
  : list TestSuggestion :=
  let ext := extension (filename file) in
  let functions := _extract_functions_from_patch p ext in
  flat_map (fun function_info =>
              _generate_function_test_suggestions (filename file)
                (fi_name function_info) (fi_change_type function_info)
                (fi_line function_info)) functions.

(** After the loop over the functions the file-level suggestion reads
    [file.status.value]; what that access raises leaves the function, and
    the local list with it. *)
Definition _analyze_file_for_tests (file : PRFileModel) (ctx : PRContext)
  : outcome (list TestSuggestion) :=
  match patch_text file with
  | None => mret []
  | Some p =>
      let suggestions := function_suggestions file p in
      v ← status_value (status file);
      let suggestions :=
        suggestions
        ++ (if String.eqb v "added" then
              [ {| target_file := filename file;
                   function_name := None;
                   test_type := "integration";
                   ts_description := "Integration tests for new file " +:+ filename file;
                   rationale := "New files should have comprehensive test coverage";
                   sample_stub :=
                     Some ("test_"
                           +:+ Py.replace "/" "_" (Py.replace "." "_" (filename file))
                           +:+ "_integration()") |} ]
            else []) in
      mret (suggestions ++ _analyze_patch_patterns (filename file) p)
  end.

Definition _is_test_file (fname : string) : bool :=
  Py.any_in ["test_"; "_test."; "tests/"; "spec_"; "_spec."; "__tests__/"]
            (Py.lower fname).

Definition _is_testable_file (fname : string) : bool :=
  if _is_test_file fname then false
  else if negb (Py.any_suffix [".py"; ".js"; ".ts"; ".java"; ".go"; ".rs"; ".cpp"; ".c"]
                              fname) then false
  else if Py.any_in ["config"; "settings"; "__init__"; "migrations/"; "docs/"]
                    (Py.lower fname) then false
  else true.

(** The key of [_deduplicate_suggestions]. *)
Definition dedup_key (s : TestSuggestion)
  : string * option string * string * string :=
  (target_file s, function_name s, test_type s, ts_description s).

Fixpoint dedup_loop (seen : gset (string * option string * string * string))
  (suggestions : list TestSuggestion) : list TestSuggestion :=
  match suggestions with
  | [] => []
  | suggestion :: rest =>
      let key := dedup_key suggestion in
      if bool_decide (key ∈ seen) then dedup_loop seen rest
      else suggestion :: dedup_loop ({[ key ]} ∪ seen) rest
  end.

Definition _deduplicate_suggestions (suggestions : list TestSuggestion)
  : list TestSuggestion := dedup_loop ∅ suggestions.

(** The loop of [run] over the files: the suggestions gathered before
    de-duplication and truncation, unless the analysis of a file raises. *)
Fixpoint collect_from (fs : list PRFileModel) (ctx : PRContext)
  : outcome (list TestSuggestion) :=
  match fs with
  | [] => mret []
  | file :: fs' =>
      if _is_testable_file (filename file) then
        file_suggestions ← _analyze_file_for_tests file ctx;
        later ← collect_from fs' ctx;
        mret (file_suggestions ++ later)
      else collect_from fs' ctx
  end.

Definition collect_suggestions (ctx : PRContext) : outcome (list TestSuggestion) :=
  collect_from (files ctx) ctx.

(** [len(set(s.function_name for s in test_suggestions if s.function_name))] *)
Definition functions_identified (l : list TestSuggestion) : Z :=
  let names : gset string :=
    list_to_set (omap (fun s => if Py.truthy (function_name s)
                                then function_name s else None) l) in
  Z.of_nat (size names).

(** The [try] block of [run]. *)
Definition analysis (fl : Faults) (ctx : PRContext) : outcome (gmap string pval) :=
  try_block (test_synthesizer_exc fl)
    (test_suggestions ← collect_suggestions ctx;
     let test_suggestions := _deduplicate_suggestions test_suggestions in
     let test_suggestions := firstn 20 test_suggestions in
     mret {[ "test_suggestions" := PSuggestions test_suggestions;
             "analysis_summary" :=
               PCounts {[ "total_suggestions" := len test_suggestions;
                          "files_analyzed" :=
                            len (List.filter (fun f => _is_testable_file (filename f))
                                             (files ctx));
                          "functions_identified" :=
                            functions_identified test_suggestions ]} ]}).

Definition run (fl : Faults) (ctx : PRContext) : AgentResult :=
  match analysis fl ctx with
  | Returns payload => _create_result "test_synthesizer" payload []
  | Raises e =>
      _create_result "test_synthesizer"
        {[ "test_suggestions" := PSuggestions [];
           "analysis_summary" := PError e ]}
        ["Error during test synthesis: " +:+ e]
  end.

End TestSynthesizerAgent.

(** ** Reviewer checklist ([agents/reviewer.py]) *)

Module ReviewerAgent.

Definition item (cat txt sev : string) (ref : option string) : ReviewChecklistItem :=
  {| category := cat; text := txt; severity := sev; line_reference := ref |}.

(** [f.patch and any(keyword in f.patch.lower() for keyword in kws)] *)
Definition patch_mentions (kws : list string) (f : PRFileModel) : bool :=
  match patch_text f with
  | Some p => Py.any_in kws (Py.lower p)
  | None => false
  end.

(** [", ".join(f.filename for f in fs)] *)
Definition names (fs : list PRFileModel) : string :=
  Py.join ", " (map filename fs).

Definition complexity_indicators : list string :=
  ["if"; "else"; "elif"; "switch"; "case";
   "for"; "while"; "foreach";
   "try"; "catch"; "except";
   "async"; "await"; "promise"].

Definition _has_complex_logic (p : string) : bool :=
  match p with
  | EmptyString => false
  | _ =>
      let lines := Py.lines p in
      let complex_lines :=
        length (List.filter (fun line => Py.any_in complexity_indicators (Py.lower line))
                            lines) in
      (5 <? complex_lines)%nat || (50 <? length lines)%nat
  end.

Definition _is_auth_related (fname : string) : bool :=
  Py.any_in ["auth"; "login"; "signin"; "permission"; "role"; "access"; "security"]
            (Py.lower fname).

Definition _is_config_file (fname : string) : bool :=
  Py.any_in [".env"; ".ini"; ".conf"; ".config"; "settings"; ".yml"; ".yaml"]
            (Py.lower fname).

Definition _is_code_file (fname : string) : bool :=
  Py.any_suffix [".py"; ".js"; ".ts"; ".java"; ".go"; ".rs"; ".cpp"; ".c";
                 ".rb"; ".php"] fname.

Definition _is_test_file (fname : string) : bool :=
  Py.any_in ["test_"; "_test."; "tests/"; "spec_"; "_spec."; "__tests__/"]
            (Py.lower fname).

Definition _is_critical_functionality (fname : string) : bool :=
  Py.any_in ["core"; "main"; "critical"; "essential"; "payment"; "auth"; "security"]
            (Py.lower fname).

Definition _is_api_file (fname : string) : bool :=
  Py.any_in ["api"; "endpoint"; "route"; "controller"; "handler"; "view"]
            (Py.lower fname).

(** [items.append(x)] under a condition. *)
Definition when (c : bool) (x : ReviewChecklistItem) : list ReviewChecklistItem :=
  if c then [x] else [].

Definition nonempty {A} (l : list A) : bool :=
  match l with [] => false | _ => true end.

Definition _analyze_code_quality (ctx : PRContext) : list ReviewChecklistItem :=
  let large_files :=
    List.filter (fun f => (300 <? additions f + deletions f)%Z) (files ctx) in
  let complex_files :=
    List.filter (fun f => (100 <? additions f + deletions f)%Z
                          && _has_complex_logic (default EmptyString (patch_text f)))
                (files ctx) in
  let files_with_errors :=
    List.filter (patch_mentions ["exception"; "error"; "try"; "catch"]) (files ctx) in
  when (nonempty large_files)
    (item "Code Quality"
       ("Review large changes in " +:+ pretty (length large_files)
        +:+ " file(s) for potential refactoring opportunities")
       "medium" (Some (names (firstn 3 large_files))))
  ++ when (nonempty complex_files)
    (item "Code Quality"
       "Verify complex logic changes are well-structured and readable"
       "high" (Some (names (firstn 2 complex_files))))
  ++ when (nonempty files_with_errors)
    (item "Code Quality"
       "Ensure proper error handling and meaningful error messages"
       "medium" None)
  ++ when (5 <? length (files ctx))%nat
    (item "Code Quality"
       "Check for potential code duplication across multiple files"
       "low" None).

Definition _analyze_security_considerations (ctx : PRContext)
  : list ReviewChecklistItem :=
  let auth_files := List.filter (fun f => _is_auth_related (filename f)) (files ctx) in
  let files_with_inputs :=
    List.filter (patch_mentions ["input"; "request"; "param"; "form"]) (files ctx) in
  let db_files :=
    List.filter (patch_mentions ["sql"; "query"; "database"; "db"]) (files ctx) in
  let config_files := List.filter (fun f => _is_config_file (filename f)) (files ctx) in
  when (nonempty auth_files)
    (item "Security"
       "Verify authentication and authorization logic is secure and properly tested"
       "high" (Some (names auth_files)))
  ++ when (nonempty files_with_inputs)
    (item "Security"
       "Ensure all user inputs are properly validated and sanitized"
       "high" None)
  ++ when (nonempty db_files)
    (item "Security"
       "Review database operations for SQL injection vulnerabilities"
       "high" None)
  ++ when (nonempty config_files)
    (item "Security"
       "Review configuration changes for security implications"
       "medium" (Some (names config_files))).

Definition _analyze_performance_implications (ctx : PRContext)
  : list ReviewChecklistItem :=
  let files_with_queries :=
    List.filter (patch_mentions ["select"; "join"; "query"; "fetch"]) (files ctx) in
  let files_with_loops :=
    List.filter (patch_mentions ["for"; "while"; "foreach"; "map"; "filter"]) (files ctx) in
  let files_with_api :=
    List.filter (patch_mentions ["http"; "request"; "api"; "fetch"; "call"]) (files ctx) in
  let large_additions := sum_additions (files ctx) in
  when (nonempty files_with_queries)
    (item "Performance"
       "Review database queries for efficiency and proper indexing"
       "medium" None)
  ++ when (nonempty files_with_loops)
    (item "Performance"
       "Check loop implementations for performance efficiency"
       "low" None)
  ++ when (nonempty files_with_api)
    (item "Performance"
       "Ensure API calls are optimized and have proper timeout/retry logic"
       "medium" None)
  ++ when (1000 <? large_additions)%Z
    (item "Performance"
       ("Large code addition (" +:+ pretty large_additions
        +:+ " lines) - consider performance impact")
       "low" None).

Definition _analyze_maintainability (ctx : PRContext) : list ReviewChecklistItem :=
  let code_files := List.filter (fun f => _is_code_file (filename f)) (files ctx) in
  when (nonempty (dependency_files ctx))
    (item "Maintainability"
       "Review new dependencies for necessity and long-term maintenance"
       "medium" None)
  ++ when (10 <? length (files ctx))%nat
    (item "Maintainability"
       "Ensure changes maintain good code organization and separation of concerns"
       "low" None)
  ++ when (3 <? length code_files)%nat
    (item "Maintainability"
       "Verify complex code sections have appropriate comments and documentation"
       "low" None).

(** The test [len(test_files) < len(code_files) / 2] divides as a float;
    on integers it says [2 * len(test_files) < len(code_files)]. *)
Definition _analyze_testing_coverage (ctx : PRContext) : list ReviewChecklistItem :=
  let test_files := List.filter (fun f => _is_test_file (filename f)) (files ctx) in
  let code_files :=
    List.filter (fun f => _is_code_file (filename f) && negb (_is_test_file (filename f)))
                (files ctx) in
  let critical_files :=
    List.filter (fun f => _is_critical_functionality (filename f)) (files ctx) in
  (if nonempty code_files && negb (nonempty test_files) then
     [item "Testing"
        "No test files modified - ensure adequate test coverage for new/changed code"
        "medium" None]
   else if nonempty test_files && (2 * length test_files <? length code_files)%nat then
     [item "Testing"
        "Consider adding more test coverage for the modified code"
        "low" None]
   else [])
  ++ when (nonempty critical_files)
    (item "Testing"
       "Ensure critical functionality changes have comprehensive test coverage"
       "high" (Some (names critical_files))).

Definition _analyze_documentation (ctx : PRContext) : list ReviewChecklistItem :=
  let api_files := List.filter (fun f => _is_api_file (filename f)) (files ctx) in
  let readme_changed :=
    existsb (fun f => Py.contains "readme" (Py.lower (filename f))) (files ctx) in
  when (nonempty api_files)
    (item "Documentation"
       "Update API documentation for any interface changes"
       "medium" (Some (names api_files)))
  ++ when (existsb (fun f => Py.endswith (filename f) ".py"
                             && match patch_text f with
                                | Some p => Py.contains "def " p
                                | None => false
                                end) (files ctx))
    (item "Documentation"
       "Ensure public functions have appropriate docstrings"
       "low" None)
  ++ when (negb readme_changed
           && (5 <? length (List.filter (fun f => _is_code_file (filename f)) (files ctx)))%nat)
    (item "Documentation"
       "Consider updating README or documentation for significant changes"
       "low" None).

(** The inner loop with its [break]: does a removed line of the patch
    mention a definition? *)
Definition removes_definition (f : PRFileModel) : bool :=
  match patch_text f with
  | Some p =>
      Py.any_suffix [".py"; ".js"; ".ts"; ".java"] (filename f)
      && existsb (fun line => Py.startswith line "-"
                              && (Py.contains "def " line
                                  || Py.contains "function " line
                                  || Py.contains "class " line))
                 (Py.lines p)
  | None => false
  end.

Definition _analyze_breaking_changes (ctx : PRContext) : list ReviewChecklistItem :=
  let functions_removed := map filename (List.filter removes_definition (files ctx)) in
  let migration_files :=
    List.filter (fun f => Py.contains "migration" (Py.lower (filename f))
                          || Py.contains ".sql" (Py.lower (filename f))) (files ctx) in
  let config_files := List.filter (fun f => _is_config_file (filename f)) (files ctx) in
  when (nonempty functions_removed)
    (item "Breaking Changes"
       "Verify removed/modified functions don't break existing functionality"
       "high" (Some (Py.join ", " functions_removed)))
  ++ when (nonempty migration_files)
    (item "Breaking Changes"
       "Review database migrations for backward compatibility"
       "high" (Some (names migration_files)))
  ++ when (nonempty config_files)
    (item "Breaking Changes"
       "Ensure configuration changes maintain backward compatibility"
       "medium" None).

(** [{'high': 0, 'medium': 1, 'low': 2}[x.severity]]: a missing key raises. *)
Definition severity_rank (sev : string) : option nat :=
  if String.eqb sev "high" then Some 0%nat
  else if String.eqb sev "medium" then Some 1%nat
  else if String.eqb sev "low" then Some 2%nat
  else None.

Definition rank_of (x : ReviewChecklistItem) : nat :=
  default 3%nat (severity_rank (severity x)).

(** [list.sort(key=...)] is stable: an element goes in front of the first
    later element whose key is not smaller. *)
Fixpoint insert_by_rank (x : ReviewChecklistItem) (l : list ReviewChecklistItem)
  : list ReviewChecklistItem :=
  match l with
  | [] => [x]
  | y :: l' =>
      if (rank_of x <=? rank_of y)%nat then x :: y :: l'
      else y :: insert_by_rank x l'
  end.

Definition sort_by_severity (l : list ReviewChecklistItem)
  : list ReviewChecklistItem :=
  fold_right insert_by_rank [] l.

(** The first item whose severity is not a key of the ranking, if any. *)
Definition unknown_severity (l : list ReviewChecklistItem) : option string :=
  option_map severity
    (List.find (fun x => match severity_rank (severity x) with
                         | None => true
                         | Some _ => false
                         end) l).

Definition collect_items (ctx : PRContext) : list ReviewChecklistItem :=
  _analyze_code_quality ctx
  ++ _analyze_security_considerations ctx
  ++ _analyze_performance_implications ctx
  ++ _analyze_maintainability ctx
  ++ _analyze_testing_coverage ctx
  ++ _analyze_documentation ctx
  ++ _analyze_breaking_changes ctx.

Definition count_severity (sev : string) (l : list ReviewChecklistItem) : Z :=
  len (List.filter (fun x => String.eqb (severity x) sev) l).

Definition failed (e : string) : AgentResult :=
  _create_result "reviewer"
    {[ "review_checklist" :=
         PChecklist [item "General"
                       "Standard code review (automated analysis failed)"
                       "medium" None];
       "analysis_summary" := PError e ]}
    ["Error during review analysis: " +:+ e].

(** The [try] block of [run]: the sort raises [KeyError] on a severity
    that is not a key of the ranking. *)
Definition analysis (fl : Faults) (ctx : PRContext) : outcome (gmap string pval) :=
  try_block (reviewer_exc fl)
    (let checklist_items := collect_items ctx in
     match unknown_severity checklist_items with
     | Some sev => Raises ("'" +:+ sev +:+ "'")      (* str(KeyError(sev)) *)
     | None =>
         let checklist_items := sort_by_severity checklist_items in
         mret {[ "review_checklist" := PChecklist checklist_items;
                 "analysis_summary" :=
                   PCounts {[ "total_items" := len checklist_items;
                              "high_priority" := count_severity "high" checklist_items;
                              "medium_priority" := count_severity "medium" checklist_items;
                              "low_priority" := count_severity "low" checklist_items ]} ]}
     end).

Definition run (fl : Faults) (ctx : PRContext) : AgentResult :=
  match analysis fl ctx with
  | Returns payload => _create_result "reviewer" payload []
  | Raises e => failed e
  end.

End ReviewerAgent.

(** ** Orchestrator ([orchestrator/runner.py])

    The report keeps the fields that the stages feed and the totals; the
    identification fields, the per-stage timings and the creation date are
    copies of the context or readings of the clock. *)

Record PRAnalysis := {
  changelog : gmap string (list string);
  risk_score : Z;
  risk_factors : list string;
  secrets_detected : list SecretDetection;
  dependency_changes : list DependencyChange;
  test_suggestions : list TestSuggestion;
  review_checklist : list ReviewChecklistItem;
  total_files : Z;
  total_additions : Z;
  total_deletions : Z
}.

Module Runner.

(** The [agents] list, in the order it is run. *)
Definition agents (fl : Faults) : list (string * (PRContext -> AgentResult)) :=
  [ ("repo_scanner", RepoScannerAgent.run fl);
    ("risk_security", RiskSecurityAgent.run fl);
    ("test_synthesizer", TestSynthesizerAgent.run fl);
    ("reviewer", ReviewerAgent.run fl) ].

(** The loop [for agent_name, agent in agents], filling [agent_results]. *)
Definition run_agents (fl : Faults) (ctx : PRContext) : gmap string AgentResult :=
  fold_left (fun agent_results '(agent_name, agent) =>
               <[agent_name := agent ctx]> agent_results)
            (agents fl) ∅.

(** [agent_results[stage].payload.get(key, default)], one reader per type
    of the report field. *)
Definition lookup_payload (agent_results : gmap string AgentResult)
  (stage key : string) : option pval :=
  match agent_results !! stage with
  | Some r => payload r !! key
  | None => None
  end.

Definition get_changelog (v : option pval) : gmap string (list string) :=
  match v with Some (PChangelog m) => m | _ => ∅ end.
Definition get_int (v : option pval) : Z :=
  match v with Some (PInt z) => z | _ => 0%Z end.
Definition get_strs (v : option pval) : list string :=
  match v with Some (PStrs l) => l | _ => [] end.
Definition get_secrets (v : option pval) : list SecretDetection :=
  match v with Some (PSecrets l) => l | _ => [] end.
Definition get_deps (v : option pval) : list DependencyChange :=
  match v with Some (PDeps l) => l | _ => [] end.
Definition get_suggestions (v : option pval) : list TestSuggestion :=
  match v with Some (PSuggestions l) => l | _ => [] end.
Definition get_checklist (v : option pval) : list ReviewChecklistItem :=
  match v with Some (PChecklist l) => l | _ => [] end.

(** The construction of [PRAnalysis] from the stage results. *)
Definition combine (ctx : PRContext) (agent_results : gmap string AgentResult)
  : PRAnalysis :=
  {| changelog := get_changelog (lookup_payload agent_results "repo_scanner" "changelog");
     risk_score := get_int (lookup_payload agent_results "risk_security" "risk_score");
     risk_factors := get_strs (lookup_payload agent_results "risk_security" "risk_factors");
     secrets_detected :=
       get_secrets (lookup_payload agent_results "risk_security" "secrets_detected");
     dependency_changes :=
       get_deps (lookup_payload agent_results "risk_security" "dependency_changes");
     test_suggestions :=
       get_suggestions (lookup_payload agent_results "test_synthesizer" "test_suggestions");
     review_checklist :=
       get_checklist (lookup_payload agent_results "reviewer" "review_checklist");
     total_files := len (files ctx);
     total_additions := sum_additions (files ctx);
     total_deletions := sum_deletions (files ctx) |}.

Definition run_agent_pipeline (fl : Faults) (ctx : PRContext) : PRAnalysis :=
  combine ctx (run_agents fl ctx).

End Runner.

(** * Specification-level definitions and sample inputs *)

(** ** Risk scorer: the two extreme inputs *)

Module RiskScorerSpec.
Import RiskScorer.

(** Every counter of the dictionary reads as zero (the key is absent or
    holds 0) and no dependency change is listed. *)
Definition all_zero (factors : RiskFactors) : Prop :=
  get0 (secrets_count factors) = 0%Z /\
  get0 (total_additions factors) = 0%Z /\
  default [] (dependency_changes factors) = [] /\
  get0 (security_files_changed factors) = 0%Z /\
  get0 (large_files_changed factors) = 0%Z /\
  get0 (total_files factors) = 0%Z /\
  get0 (binary_files_changed factors) = 0%Z /\
  get0 (database_files_changed factors) = 0%Z /\
  get0 (security_config_files_changed factors) = 0%Z /\
  get0 (deployment_files_changed factors) = 0%Z /\
  get0 (large_deletions factors) = 0%Z.

(** Every condition of the scorer holds. *)
Definition all_satisfied (factors : RiskFactors) : Prop :=
  (0 < get0 (secrets_count factors))%Z /\
  (1000 < get0 (total_additions factors))%Z /\
  (exists d, In d (default [] (dependency_changes factors))
             /\ is_high_risk_dict d = true) /\
  (0 < get0 (security_files_changed factors))%Z /\
  (0 < get0 (large_files_changed factors))%Z /\
  (20 < get0 (total_files factors))%Z /\
  (0 < get0 (binary_files_changed factors))%Z /\
  (0 < get0 (database_files_changed factors))%Z /\
  (0 < get0 (security_config_files_changed factors))%Z /\
  (0 < get0 (deployment_files_changed factors))%Z /\
  (500 < get0 (large_deletions factors))%Z.

Definition zero_factors : RiskFactors :=
  {| secrets_count := Some 0%Z; total_additions := Some 0%Z;
     dependency_changes := Some [];
     security_files_changed := Some 0%Z; large_files_changed := Some 0%Z;
     total_files := Some 0%Z; binary_files_changed := Some 0%Z;
     database_files_changed := Some 0%Z;
     security_config_files_changed := Some 0%Z;
     deployment_files_changed := Some 0%Z; large_deletions := Some 0%Z |}.

Definition maxed_factors : RiskFactors :=
  {| secrets_count := Some 3%Z; total_additions := Some 5000%Z;
     dependency_changes := Some [AsDict {[ "risk_level" := "high" ]}];
     security_files_changed := Some 2%Z; large_files_changed := Some 1%Z;
     total_files := Some 40%Z; binary_files_changed := Some 1%Z;
     database_files_changed := Some 1%Z;
     security_config_files_changed := Some 1%Z;
     deployment_files_changed := Some 1%Z; large_deletions := Some 900%Z |}.

End RiskScorerSpec.

(** ** Version comparison in the words of the specification *)

Module VersionSpec.

(** Component [i] of a version; a missing trailing component reads as 0. *)
Definition component (parts : list Z) (i : nat) : Z := nth i parts 0%Z.

(** [i] is the first position where the two versions differ. *)
Definition first_difference (old_parts new_parts : list Z) (i : nat) : Prop :=
  (forall j, (j < i)%nat -> component old_parts j = component new_parts j) /\
  component old_parts i <> component new_parts i.

End VersionSpec.

(** ** Auxiliary notions about the matcher *)

Module ReAux.
Import Re.

(** The text does not start with a character of the class. *)
Definition stops (p : ascii -> bool) (s : string) : Prop :=
  match s with
  | EmptyString => True
  | String c _ => p c = false
  end.

(** What matching one character of a class does. *)
Definition class_step (p : ascii -> bool) (st : mstate)
  (k : mstate -> option mstate) : option mstate :=
  match Re.rest st with
  | String c s' => if p c then k (MState (S (pos st)) s' (caps st)) else None
  | EmptyString => None
  end.

Definition is_plus (c : ascii) : bool := Ascii.eqb "+" c.

(** The second state is the first one after some text [w] was read. *)
Definition advances (st st' : mstate) : Prop :=
  exists w, Re.rest st = w +:+ Re.rest st'
            /\ pos st' = (pos st + String.length w)%nat.

End ReAux.

(** ** Destination line numbers in the words of the specification *)

Module DiffSpec.
Import SecretScanner.

Inductive line_kind :=
| HunkHeader (target : option Z)   (* a line starting with two at-signs *)
| AddedLine (content : string)     (* a plus line that is not a file header *)
| DeletedLine                      (* a minus line *)
| ContextLine.                     (* anything else *)

Definition classify (line : string) : line_kind :=
  if Py.startswith line "@@" then HunkHeader (hunk_target line)
  else if Py.startswith line "+" && negb (Py.startswith line "+++")
  then AddedLine (Py.tail line)
  else if Py.startswith line "-" then DeletedLine
  else ContextLine.

(** The added lines of a diff with their destination line numbers: a hunk
    header with target [c] resets the running counter to [c - 1], a context
    line and an added line increment it, a deleted line leaves it. *)
Fixpoint numbered_added_lines (lines : list string) (counter : Z)
  : list (Z * string) :=
  match lines with
  | [] => []
  | line :: lines' =>
      match classify line with
      | HunkHeader (Some c) => numbered_added_lines lines' (c - 1)
      | HunkHeader None => numbered_added_lines lines' counter
      | AddedLine content =>
          (counter + 1, content)%Z :: numbered_added_lines lines' (counter + 1)
      | DeletedLine => numbered_added_lines lines' counter
      | ContextLine => numbered_added_lines lines' (counter + 1)
      end
  end.

(** What scanning one numbered added line yields. *)
Definition scan_numbered (fname : string) (nl : Z * string) : list SecretDetection :=
  if _is_safe_line (snd nl) fname then []
  else scan_line (snd nl) fname (fst nl).

(** A hunk header [@@ -a,b +c,d @@] written with digit strings. *)
Definition hunk_header (a b c d : string) : string :=
  "@@ -" +:+ a +:+ "," +:+ b +:+ " +" +:+ c +:+ "," +:+ d +:+ " @@".

Definition digits (s : string) : Prop := Py.forallb_str Py.is_digit s = true.

(** The diff of the worked example: one hunk header and one added line. *)
Definition password_diff : string :=
  "@@ -10,0 +10,3 @@" +:+ nl +:+ "+password = " +:+ Py.dq +:+ "Sup3rSecret!" +:+ Py.dq.

End DiffSpec.

(** ** Placeholder lines *)

Module PlaceholderSpec.

(** The line [password = "YOUR_API_KEY"]. *)
Definition password_placeholder : string :=
  "password = " +:+ Py.dq +:+ "YOUR_API_KEY" +:+ Py.dq.

(** The line [api_key = "YOUR_API_KEY"]. *)
Definition api_key_placeholder : string :=
  "api_key = " +:+ Py.dq +:+ "YOUR_API_KEY" +:+ Py.dq.

(** The markers of [safe_markers] that are written in lower case. *)
Definition lower_case_markers : list string :=
  ["example"; "test"; "mock"; "fake"; "dummy"; "placeholder"; "xxx"; "yyy"; "zzz"].

End PlaceholderSpec.

(** ** Sample change sets *)

Module Samples.

Definition file (n : string) (st : PRFileStatus) (a d : Z) (p : option string)
  : PRFileModel :=
  {| filename := n; status := st; additions := a; deletions := d;
     changes := (a + d)%Z; patch := p |}.

Definition context (fs : list PRFileModel) (deps : list (string * string))
  (title : string) : PRContext :=
  {| run_id := "run-1"; repo_full_name := "octo/demo"; pr_number := 1;
     head_sha := "head"; base_sha := "base";
     files := fs; raw_diff := EmptyString; language_stats := [];
     dependency_files := deps;
     pr_title := title; pr_body := None; author := "dev"; labels := [] |}.

(** One added migration file. *)
Definition migration_ctx : PRContext :=
  context [file "migrations/001_init.sql" ADDED 10 0 None] [] "Schema".

(** A migration file, a deployment file, a binary file and a configuration
    file whose patch mentions a password. *)
Definition infra_ctx : PRContext :=
  context [file "migrations/001_init.sql" ADDED 10 0 None;
           file "Dockerfile" MODIFIED 1 1 None;
           file "logo.png" ADDED 0 0 None;
           file "config/app.yml" MODIFIED 1 0 (Some "+password: abc")]
          [] "Infra".

(** The end-to-end example: one added file [auth/login.py], 120 added
    lines, whose patch defines [login] and holds no secret. *)
Definition login_patch : string :=
  "@@ -0,0 +1,120 @@" +:+ nl +:+
  "+def login(username, password):" +:+ nl +:+
  "+    return check(username, password)".

Definition login_file : PRFileModel :=
  file "auth/login.py" ADDED 120 0 (Some login_patch).

Definition login_ctx : PRContext := context [login_file] [] "Login".

End Samples.

(** ** Well-formed change sets and failing runs *)

Module PipelineSpec.

(** The line counts of a change set are not negative. *)
Definition counts_nonneg (ctx : PRContext) : Prop :=
  Forall (fun f => (0 <= additions f)%Z) (files ctx).

(** A run in which the [try] block of the Risk & Security stage raises. *)
Definition risk_stage_fails : Faults :=
  {| repo_scanner_exc := None; risk_security_exc := Some "boom";
     test_synthesizer_exc := None; reviewer_exc := None |}.

(** A change set that touches [requirements.txt]. *)
Definition manifest_ctx : PRContext :=
  Samples.context
    [Samples.file "requirements.txt" MODIFIED 1 1
       (Some ("@@ -1,1 +1,1 @@" +:+ nl +:+ "-flask==1.0" +:+ nl +:+ "+flask==2.0.1"))]
    [("requirements.txt", "flask==2.0.1")] "Bump flask".

(** A change set whose one file carries a negative addition count: the
    schema asks for an integer and nothing more. *)
Definition odd_counts_ctx : PRContext :=
  Samples.context [Samples.file "a.py" MODIFIED (-1000) 1000 None] [] "Odd counts".

(** The file is one the test synthesizer goes through: it is accepted and
    its patch is not empty. *)
Definition analysed (file : PRFileModel) : bool :=
  TestSynthesizerAgent._is_testable_file (filename file) && Py.truthy (patch file).

End PipelineSpec.

(** ** Manifest samples *)

Module ManifestSpec.

(** A patch of [package.json] that replaces one version of [lodash] by
    another and drops [left-pad]. *)
Definition package_json_patch : string :=
  "@@ -5,2 +5,1 @@" +:+ nl +:+
  "-    " +:+ Py.dq +:+ "lodash" +:+ Py.dq +:+ ": "
          +:+ Py.dq +:+ "4.17.20" +:+ Py.dq +:+ "," +:+ nl +:+
  "+    " +:+ Py.dq +:+ "lodash" +:+ Py.dq +:+ ": "
          +:+ Py.dq +:+ "4.17.21" +:+ Py.dq +:+ "," +:+ nl +:+
  "-    " +:+ Py.dq +:+ "left-pad" +:+ Py.dq +:+ ": "
          +:+ Py.dq +:+ "1.0.0" +:+ Py.dq.

Definition package_json_ctx : PRContext :=
  Samples.context
    [Samples.file "package.json" MODIFIED 1 2 (Some package_json_patch)]
    [("package.json", "{}")] "Bump lodash".

(** A patch of [requirements.txt] with an upgrade, an addition and a
    removal. *)
Definition requirements_patch : string :=
  "@@ -1,2 +1,2 @@" +:+ nl +:+ "-flask==1.9.0" +:+ nl +:+ "+flask==1.10.0"
  +:+ nl +:+ "+cryptography==41.0.0" +:+ nl +:+ "-six==1.16.0".

Definition requirements_ctx : PRContext :=
  Samples.context
    [Samples.file "requirements.txt" MODIFIED 2 2 (Some requirements_patch)]
    [("requirements.txt", "flask==1.10.0")] "Bump flask".

(** What the specification reports for a name, from its versions in the
    map of the removed lines and in the map of the added lines: a version
    change when it is in both, an addition when it is in the added map only,
    a removal when it is in the removed map only, and nothing otherwise. *)
Definition classified (old new : option string) (pkg : string)
  : option DependencyChange :=
  match old, new with
  | Some o, Some n =>
      let kind := DependencyScanner._determine_version_change_type o n in
      Some {| package := pkg; old_version := Some o; new_version := Some n;
              change_type := kind;
              dep_risk_level := DependencyScanner._assess_package_risk pkg kind |}
  | None, Some n =>
      Some {| package := pkg; old_version := None; new_version := Some n;
              change_type := "added";
              dep_risk_level := DependencyScanner._assess_package_risk pkg "added" |}
  | Some o, None =>
      Some {| package := pkg; old_version := Some o; new_version := None;
              change_type := "removed";
              dep_risk_level := DependencyScanner._assess_package_risk pkg "removed" |}
  | None, None => None
  end.

(** The names of the three manifest formats whose handler reads added lines
    only. *)
Definition added_only_manifest (fname : string) : Prop :=
  fname = "package.json" \/ fname = "Pipfile" \/ fname = "pyproject.toml" \/
  fname = "go.mod" \/ fname = "go.sum".

(** The names handled as a plain-text pinned-version list. *)
Definition requirements_manifest (fname : string) : Prop :=
  Py.endswith fname "requirements.txt" || Py.endswith fname "requirements-dev.txt"
  = true.

End ManifestSpec.

(** * Properties *)

(** ** The matcher on sample texts

    The expected values are those of Python's [re] module on the same
    pattern and text. *)

Section MatcherExamples.
Import Re.

Example search_python_def :
  option_map (fun m => (m_start m, m_text m, group 1 m))
    (search (default Eps (TestSynthesizerAgent.function_patterns !! "py"))
            "    def  fetch_user (uid):")
  = Some (0%nat, "    def  fetch_user (", Some "fetch_user").
Proof. vm_compute. reflexivity. Qed.

Example search_java_method :
  option_map (fun m => (m_text m, group 1 m))
    (search (default Eps (TestSynthesizerAgent.function_patterns !! "java"))
            "public static void main(String[] args) {")
  = Some ("public static void main(", Some "main").
Proof. vm_compute. reflexivity. Qed.

Example search_js_arrow :
  option_map (fun m => (m_text m, group 1 m, group 2 m))
    (search (default Eps (TestSynthesizerAgent.function_patterns !! "js"))
            "const bar = (a, b) => a + b")
  = None.
Proof. vm_compute. reflexivity. Qed.

Example search_js_assignment :
  option_map (fun m => (m_text m, group 1 m, group 2 m))
    (search (default Eps (TestSynthesizerAgent.function_patterns !! "js"))
            " handler = (req) => {}")
  = Some (" handler = (req) =>", None, Some "handler").
Proof. vm_compute. reflexivity. Qed.

Example match_requirement :
  option_map (fun m => (group 1 m, group 2 m, group 3 m))
    (rematch DependencyScanner.requirement_pattern "requests>=2.0,<3")
  = Some (Some "requests", Some ">=", Some "2.0,<3").
Proof. vm_compute. reflexivity. Qed.

Example match_requirement_backtracks :
  option_map (fun m => (group 1 m, group 2 m, group 3 m))
    (rematch DependencyScanner.requirement_pattern "pkg==")
  = Some (Some "pkg", Some "=", Some "=").
Proof. vm_compute. reflexivity. Qed.

Example finditer_email_credentials :
  map (fun m => (m_start m, m_text m))
    (finditer (snd (fst (List.last SecretScanner.patterns (EmptyString, Eps, EmptyString))))
              "a@b.cc:123456 a@b.cc:1234567")
  = [(0%nat, "a@b.cc:123456"); (14%nat, "a@b.cc:1234567")].
Proof. vm_compute. reflexivity. Qed.

Example hunk_target_first_plus :
  SecretScanner.hunk_target "@@ -1 +2 @@ x+3" = Some 2%Z.
Proof. vm_compute. reflexivity. Qed.

End MatcherExamples.

(** ** Texts and the repetition of a character class *)

Section RegexFacts.
Import Re ReAux.

Lemma append_cons (x : ascii) (a b : string) :
  String x a +:+ b = String x (a +:+ b).
Proof. reflexivity. Qed.

Lemma append_nil (b : string) : EmptyString +:+ b = b.
Proof. reflexivity. Qed.

Lemma append_assoc (a b c : string) : (a +:+ b) +:+ c = a +:+ (b +:+ c).
Proof.
  induction a as [| x a IH]; [reflexivity|].
  rewrite !append_cons. now rewrite IH.
Qed.

Lemma length_append (a b : string) :
  String.length (a +:+ b) = (String.length a + String.length b)%nat.
Proof.
  induction a as [| x a IH]; [reflexivity|].
  rewrite append_cons. simpl. now rewrite IH.
Qed.

Lemma take_append (a b : string) : take (String.length a) (a +:+ b) = a.
Proof.
  induction a as [| x a IH]; [now destruct b|].
  rewrite append_cons. simpl. now rewrite IH.
Qed.

Lemma forallb_str_append (p : ascii -> bool) (a b : string) :
  Py.forallb_str p (a +:+ b) = Py.forallb_str p a && Py.forallb_str p b.
Proof.
  induction a as [| x a IH]; [reflexivity|].
  rewrite append_cons. simpl. rewrite IH. now rewrite andb_assoc.
Qed.

Lemma run_Chr (p : ascii -> bool) (st : mstate) (k : mstate -> option mstate) :
  run (Chr p) st k = class_step p st k.
Proof. reflexivity. Qed.

(** A greedy repetition of a character class reads a run of the class to
    its end when what follows accepts there. *)
Lemma rep_loop_class (p : ascii -> bool)
  (body : mstate -> (mstate -> option mstate) -> option mstate)
  (k : mstate -> option mstate)
  (tl : string) (cs : list (nat * string)) (run_c : string) :
  (forall st k0, body st k0 = class_step p st k0) ->
  forall fuel lo n,
  Py.forallb_str p run_c = true ->
  stops p tl ->
  (String.length run_c < fuel)%nat ->
  (lo <= String.length run_c)%nat ->
  is_Some (k (MState (n + String.length run_c) tl cs)) ->
  rep_loop body k fuel lo None (MState n (run_c +:+ tl) cs)
  = k (MState (n + String.length run_c) tl cs).
Proof.
  intros Hbody.
  induction run_c as [| c run_c IH]; intros fuel lo n Hall Hstop Hfuel Hlo Hk.
  - rewrite append_nil. simpl in *. replace lo with 0%nat by lia.
    rewrite Nat.add_0_r in *.
    destruct fuel as [| fuel]; [lia|]. simpl. rewrite Hbody. unfold class_step.
    destruct tl as [| c tl]; simpl; [reflexivity|].
    simpl in Hstop. rewrite Hstop. reflexivity.
  - simpl in Hall. apply andb_true_iff in Hall as [Hc Hall].
    destruct fuel as [| fuel]; [simpl in Hfuel; lia|].
    simpl in Hfuel, Hlo.
    assert (Hk' : is_Some (k (MState (S n + String.length run_c) tl cs)))
      by (replace (S n + String.length run_c)%nat
            with (n + S (String.length run_c))%nat by lia; exact Hk).
    pose proof (IH fuel (Nat.pred lo) (S n) Hall Hstop ltac:(lia) ltac:(lia) Hk')
      as Hrec.
    rewrite append_cons.
    cbn [rep_loop option_map]. rewrite Hbody. unfold class_step.
    cbn [Re.rest Re.pos Re.caps].
    rewrite Hc.
    replace (n <? S n)%nat with true by (symmetry; apply Nat.ltb_lt; lia).
    rewrite Hrec.
    replace (n + String.length (String c run_c))%nat
      with (S n + String.length run_c)%nat by (simpl; lia).
    destruct Hk' as [m Hm]. rewrite Hm. reflexivity.
Qed.

End RegexFacts.

(** ** The matcher consumes a prefix of the text *)

Section RunFacts.
Import Re ReAux.

Lemma advances_refl (st : mstate) : advances st st.
Proof. exists EmptyString. split; [reflexivity | simpl; lia]. Qed.

Lemma advances_trans (a b c : mstate) :
  advances a b -> advances b c -> advances a c.
Proof.
  intros (w1 & Hr1 & Hp1) (w2 & Hr2 & Hp2). exists (w1 +:+ w2). split.
  - rewrite Hr1, Hr2. now rewrite append_assoc.
  - rewrite length_append. lia.
Qed.

Lemma advances_pos (a b : mstate) : advances a b -> (pos a <= pos b)%nat.
Proof. intros (w & _ & Hp). lia. Qed.

Lemma advances_set_cap (i : nat) (a b : mstate) :
  advances a b -> advances a (set_cap i a b).
Proof. intros (w & Hr & Hp). exists w. split; assumption. Qed.

(** A repetition whose body advances advances, and strictly when at least
    one iteration is asked for. *)
Lemma rep_loop_advances
  (body : mstate -> (mstate -> option mstate) -> option mstate)
  (k : mstate -> option mstate) :
  (forall st k0 m, body st k0 = Some m ->
     exists st', advances st st' /\ k0 st' = Some m) ->
  forall fuel lo hi st m,
  rep_loop body k fuel lo hi st = Some m ->
  exists st', advances st st' /\ k st' = Some m
              /\ ((0 < lo)%nat -> (pos st < pos st')%nat).
Proof.
  intros Hbody. induction fuel as [| fuel IH]; intros lo hi st m Hrun.
  - simpl in Hrun. destruct (Nat.eqb_spec lo 0) as [-> | Hlo]; [|discriminate].
    exists st. split; [apply advances_refl|]. split; [exact Hrun | lia].
  - assert (Hstop : (if (lo =? 0)%nat then k st else None) = Some m ->
              exists st', advances st st' /\ k st' = Some m
                          /\ ((0 < lo)%nat -> (pos st < pos st')%nat)).
    { destruct (Nat.eqb_spec lo 0) as [-> | Hlo]; [|discriminate].
      intros Hk. exists st. split; [apply advances_refl|]. split; [exact Hk | lia]. }
    cbn [rep_loop] in Hrun.
    assert (Hstep :
      match body st (fun st' =>
              if (pos st <? pos st')%nat
              then rep_loop body k fuel (Nat.pred lo) (option_map Nat.pred hi) st'
              else None) with
      | Some m0 => Some m0
      | None => if (lo =? 0)%nat then k st else None
      end = Some m ->
      exists st', advances st st' /\ k st' = Some m
                  /\ ((0 < lo)%nat -> (pos st < pos st')%nat)).
    { destruct (body st _) as [m0|] eqn:Hb; [|exact Hstop].
      intros [= ->]. apply Hbody in Hb as (st1 & Hadv & Hk1).
      destruct (Nat.ltb_spec (pos st) (pos st1)) as [Hlt | _]; [|discriminate].
      apply IH in Hk1 as (st' & Hadv' & Hk & _).
      exists st'. split; [eapply advances_trans; eassumption|].
      split; [exact Hk|]. intros _. apply advances_pos in Hadv'. lia. }
    destruct hi as [[| h] |]; auto.
Qed.

(** A successful run hands to its continuation a state further in the
    text. *)
Lemma run_advances (r : regex) :
  forall st k m, run r st k = Some m ->
  exists st', advances st st' /\ k st' = Some m.
Proof.
  induction r as [p | | r1 IH1 r2 IH2 | r1 IH1 r2 IH2 | r IH lo hi | i r IH | |];
    intros st k m Hrun; cbn [run] in Hrun.
  - destruct st as [n s cs]. cbn [Re.rest Re.pos Re.caps] in Hrun.
    destruct s as [| c s]; [discriminate|].
    destruct (p c); [|discriminate].
    eexists. split; [|exact Hrun].
    exists (String c EmptyString). split; [reflexivity | simpl; lia].
  - exists st. split; [apply advances_refl | exact Hrun].
  - apply IH1 in Hrun as (st1 & Hadv1 & Hrun).
    apply IH2 in Hrun as (st2 & Hadv2 & Hk).
    exists st2. split; [eapply advances_trans; eassumption | exact Hk].
  - destruct (run r1 st k) as [m1|] eqn:H1.
    + injection Hrun as ->. now apply IH1.
    + now apply IH2.
  - apply (rep_loop_advances _ _ IH) in Hrun as (st' & Hadv & Hk & _).
    now exists st'.
  - apply IH in Hrun as (st1 & Hadv & Hk).
    exists (set_cap i st st1). split; [now apply advances_set_cap | exact Hk].
  - destruct (pos st =? 0)%nat; [|discriminate].
    exists st. split; [apply advances_refl | exact Hrun].
  - destruct (at_eol (Re.rest st)); [|discriminate].
    exists st. split; [apply advances_refl | exact Hrun].
Qed.

End RunFacts.

(** ** The fuel of the matcher is enough *)

Section FuelFacts.
Import Re ReAux.

Lemma advances_length (a b : mstate) :
  advances a b -> (pos a < pos b)%nat ->
  (String.length (Re.rest b) < String.length (Re.rest a))%nat.
Proof.
  intros (w & Hr & Hp) Hlt. rewrite Hr, length_append. lia.
Qed.

(** A repetition depends on its continuation only at the states it can
    reach. *)
Lemma rep_loop_ext
  (body : mstate -> (mstate -> option mstate) -> option mstate) :
  (forall st k1 k2,
     (forall st', advances st st' -> k1 st' = k2 st') ->
     body st k1 = body st k2) ->
  forall fuel lo hi st k1 k2,
  (forall st', advances st st' -> k1 st' = k2 st') ->
  rep_loop body k1 fuel lo hi st = rep_loop body k2 fuel lo hi st.
Proof.
  intros Hbody. induction fuel as [| fuel IH]; intros lo hi st k1 k2 Hk;
    cbn [rep_loop]; rewrite (Hk st (advances_refl st)); [reflexivity|].
  rewrite (Hbody st _
             (fun st' =>
                if (pos st <? pos st')%nat
                then rep_loop body k2 fuel (Nat.pred lo) (option_map Nat.pred hi) st'
                else None)); [reflexivity|].
  intros st' Hadv. destruct (pos st <? pos st')%nat; [|reflexivity].
  apply IH. intros st'' Hadv'. apply Hk. eapply advances_trans; eassumption.
Qed.

Lemma run_ext (r : regex) :
  forall st k1 k2,
  (forall st', advances st st' -> k1 st' = k2 st') ->
  run r st k1 = run r st k2.
Proof.
  induction r as [p | | r1 IH1 r2 IH2 | r1 IH1 r2 IH2 | r IH lo hi | i r IH | |];
    intros st k1 k2 Hk; cbn [run].
  - destruct st as [n s cs]. cbn [Re.rest Re.pos Re.caps].
    destruct s as [| c s]; [reflexivity|]. destruct (p c); [|reflexivity].
    apply Hk. exists (String c EmptyString). split; [reflexivity | simpl; lia].
  - apply Hk, advances_refl.
  - apply IH1. intros st1 Hadv1. apply IH2. intros st2 Hadv2.
    apply Hk. eapply advances_trans; eassumption.
  - rewrite (IH1 st k1 k2 Hk), (IH2 st k1 k2 Hk). reflexivity.
  - apply (rep_loop_ext _ IH). exact Hk.
  - apply IH. intros st1 Hadv. apply Hk. now apply advances_set_cap.
  - destruct (pos st =? 0)%nat; [apply Hk, advances_refl | reflexivity].
  - destruct (at_eol (Re.rest st)); [apply Hk, advances_refl | reflexivity].
Qed.

(** More fuel than the length of the text changes nothing: every iteration
    reads at least one character. *)
Lemma rep_loop_fuel (r : regex) (k : mstate -> option mstate) :
  forall fuel lo hi st,
  (String.length (Re.rest st) < fuel)%nat ->
  rep_loop (run r) k (S fuel) lo hi st = rep_loop (run r) k fuel lo hi st.
Proof.
  induction fuel as [| fuel IH]; intros lo hi st Hlen; [lia|].
  cbn [rep_loop].
  rewrite (run_ext r st _
             (fun st' =>
                if (pos st <? pos st')%nat
                then rep_loop (run r) k fuel (Nat.pred lo) (option_map Nat.pred hi) st'
                else None)); [reflexivity|].
  intros st' Hadv. destruct (Nat.ltb_spec (pos st) (pos st')) as [Hlt | _];
    [|reflexivity].
  apply IH. pose proof (advances_length _ _ Hadv Hlt). lia.
Qed.

Lemma rep_loop_enough_fuel (r : regex) (k : mstate -> option mstate)
  (lo : nat) (hi : option nat) (st : mstate) (extra : nat) :
  rep_loop (run r) k (S (String.length (Re.rest st)) + extra) lo hi st
  = run (Rep r lo hi) st k.
Proof.
  cbn [run]. induction extra as [| extra IH].
  - now rewrite Nat.add_0_r.
  - rewrite Nat.add_succ_r, rep_loop_fuel by lia. exact IH.
Qed.

Lemma match_at_start (r : regex) (p : nat) (s : string) (m : rmatch) :
  match_at r p s = Some m -> m_start m = p.
Proof.
  unfold match_at. destruct (run r _ Some); [|discriminate].
  now intros [= <-].
Qed.

Lemma search_from_start (r : regex) (s : string) :
  forall p m, search_from r p s = Some m -> (p <= m_start m)%nat.
Proof.
  induction s as [| c s IH]; intros p m; cbn [search_from];
    destruct (match_at r p _) as [m0|] eqn:Hm.
  - intros [= <-]. apply match_at_start in Hm. lia.
  - discriminate.
  - intros [= <-]. apply match_at_start in Hm. lia.
  - intros H. apply IH in H. lia.
Qed.

Lemma length_drop (n : nat) (s : string) :
  String.length (drop n s) = (String.length s - n)%nat.
Proof.
  revert s. induction n as [| n IH]; intros [| c s]; simpl; auto.
Qed.

(** The iteration over the matches stops before its fuel does. *)
Lemma finditer_from_fuel (r : regex) :
  forall fuel p s,
  (String.length s < fuel)%nat ->
  finditer_from (S fuel) r p s = finditer_from fuel r p s.
Proof.
  induction fuel as [| fuel IH]; intros p s Hlen; [lia|].
  cbn [finditer_from].
  destruct (search_from r p s) as [m|] eqn:Hm; [|reflexivity].
  apply search_from_start in Hm. f_equal.
  set (e := if (m_end m =? m_start m)%nat then S (m_end m) else m_end m).
  assert (He : (p < e)%nat).
  { subst e. unfold m_end.
    destruct (Nat.eqb_spec (m_start m + String.length (m_text m)) (m_start m)); lia. }
  destruct (Nat.leb_spec (e - p) (String.length s)) as [Hle | _]; [|reflexivity].
  apply IH. rewrite length_drop. lia.
Qed.

End FuelFacts.

(** ** Reversal and stripping *)

Section StripFacts.

Lemma append_empty_r (s : string) : s +:+ EmptyString = s.
Proof.
  induction s as [| c s IH]; [reflexivity|]. rewrite append_cons. now rewrite IH.
Qed.

Lemma rev_acc_app (s acc : string) : Py.rev_acc s acc = Py.rev s +:+ acc.
Proof.
  unfold Py.rev. revert acc.
  induction s as [| c s IH]; intros acc; [reflexivity|].
  simpl. rewrite (IH (String c acc)), (IH (String c EmptyString)).
  now rewrite append_assoc.
Qed.

Lemma rev_cons (c : ascii) (s : string) :
  Py.rev (String c s) = Py.rev s +:+ String c EmptyString.
Proof. unfold Py.rev at 1. simpl. apply rev_acc_app. Qed.

Lemma rev_append (a b : string) : Py.rev (a +:+ b) = Py.rev b +:+ Py.rev a.
Proof.
  induction a as [| c a IH].
  - rewrite append_nil. change (Py.rev EmptyString) with EmptyString.
    now rewrite append_empty_r.
  - rewrite append_cons, !rev_cons, IH. now rewrite append_assoc.
Qed.

Lemma rev_involutive (s : string) : Py.rev (Py.rev s) = s.
Proof.
  induction s as [| c s IH]; [reflexivity|].
  rewrite rev_cons, rev_append, IH. reflexivity.
Qed.

Lemma existsb_str_append (p : ascii -> bool) (a b : string) :
  Py.existsb_str p (a +:+ b) = Py.existsb_str p a || Py.existsb_str p b.
Proof.
  induction a as [| c a IH]; [reflexivity|].
  rewrite append_cons. simpl. rewrite IH. now rewrite orb_assoc.
Qed.

Lemma existsb_str_rev (p : ascii -> bool) (s : string) :
  Py.existsb_str p (Py.rev s) = Py.existsb_str p s.
Proof.
  induction s as [| c s IH]; [reflexivity|].
  rewrite rev_cons, existsb_str_append, IH. simpl.
  rewrite orb_false_r. apply orb_comm.
Qed.

Lemma lstrip_head (s : string) (c : ascii) (t : string) :
  Py.lstrip s = String c t -> Py.is_space c = false.
Proof.
  induction s as [| x s IH]; simpl; [discriminate|].
  destruct (Py.is_space x) eqn:E; [exact IH|].
  intros [= <- _]. exact E.
Qed.

Lemma existsb_str_lstrip (s : string) :
  Py.existsb_str (fun c => negb (Py.is_space c)) (Py.lstrip s)
  = Py.existsb_str (fun c => negb (Py.is_space c)) s.
Proof.
  induction s as [| x s IH]; [reflexivity|].
  simpl. destruct (Py.is_space x) eqn:E; simpl; [exact IH | now rewrite E].
Qed.

(** Stripping a text that holds a character other than white space leaves
    something. *)
Lemma strip_nonempty (v : string) :
  Py.existsb_str (fun c => negb (Py.is_space c)) v = true ->
  Py.strip v <> EmptyString.
Proof.
  intros Hv Hempty.
  assert (H : Py.existsb_str (fun c => negb (Py.is_space c)) (Py.strip v) = true).
  { unfold Py.strip.
    now rewrite existsb_str_rev, existsb_str_lstrip, existsb_str_rev,
      existsb_str_lstrip. }
  rewrite Hempty in H. discriminate H.
Qed.

(** A stripped text does not end with white space: its reversal starts
    with another character. *)
Lemma rev_strip_head (s : string) (c : ascii) (t : string) :
  Py.rev (Py.strip s) = String c t -> Py.is_space c = false.
Proof.
  unfold Py.strip. rewrite rev_involutive. apply lstrip_head.
Qed.

End StripFacts.

(** ** Risk scorer *)

Section RiskScorerFacts.
Import RiskScorer RiskScorerSpec.

Lemma add_if_bounds (c : bool) (pts score : Z) :
  (0 <= pts -> score <= add_if c pts score <= score + pts)%Z.
Proof. unfold add_if; destruct c; lia. Qed.

Lemma raw_score_bounds (factors : RiskFactors) :
  (0 <= raw_score factors <= 115)%Z.
Proof.
  unfold raw_score, base_score. cbv zeta.
  repeat match goal with
  | |- context [add_if ?c ?p ?s] =>
      lazymatch s with context [add_if _ _ _] => fail | _ => idtac end;
      let H := fresh "H" in
      let x := fresh "x" in
      assert (H := add_if_bounds c p s ltac:(lia));
      set (x := add_if c p s) in *; clearbody x
  end.
  lia.
Qed.

Lemma filter_nonempty {A} (p : A -> bool) (l : list A) (x : A) :
  In x l -> p x = true -> (0 <? length (List.filter p l))%nat = true.
Proof.
  intros Hin Hp. apply Nat.ltb_lt.
  assert (Hx : In x (List.filter p l)) by (apply filter_In; auto).
  destruct (List.filter p l); [destruct Hx | simpl; lia].
Qed.

Lemma calculate_risk_score_bounds (factors : RiskFactors) :
  (0 <= calculate_risk_score factors <= 100)%Z.
Proof.
  unfold calculate_risk_score, max_score.
  pose proof (raw_score_bounds factors). lia.
Qed.

(** C1. The risk scorer returns an integer between 0 and 100 for every
    factors dictionary; it returns 0 when all counters are zero, and when
    every factor condition holds the raw sum is 115 and the result is
    exactly 100. *)
Theorem risk_score_in_range (factors : RiskFactors) :
  (0 <= calculate_risk_score factors <= 100)%Z /\
  (all_zero factors -> calculate_risk_score factors = 0%Z) /\
  (all_satisfied factors ->
     raw_score factors = (25 + 10 + 15 + 10 + 10 + 5 + 5 + 8 + 12 + 7 + 8)%Z /\
     calculate_risk_score factors = 100%Z).
Proof.
  split; [|split].
  - apply calculate_risk_score_bounds.
  - intros (H1 & H2 & H3 & H4 & H5 & H6 & H7 & H8 & H9 & H10 & H11).
    unfold calculate_risk_score, raw_score.
    rewrite H1, H2, H3, H4, H5, H6, H7, H8, H9, H10, H11. reflexivity.
  - intros (H1 & H2 & (d & Hd & Hhigh) & H4 & H5 & H6 & H7 & H8 & H9 & H10 & H11).
    assert (Hraw : raw_score factors = 115%Z).
    { unfold raw_score, base_score, add_if.
      rewrite (filter_nonempty _ _ d Hd Hhigh).
      repeat match goal with
      | H : (?a < ?b)%Z |- context [(?a <? ?b)%Z] =>
          rewrite (proj2 (Z.ltb_lt a b) H)
      end.
      reflexivity. }
    split; [exact Hraw|].
    unfold calculate_risk_score, max_score. rewrite Hraw. reflexivity.
Qed.

Lemma risk_score_in_range_witness :
  all_zero zero_factors /\ calculate_risk_score zero_factors = 0%Z /\
  all_satisfied maxed_factors /\ calculate_risk_score maxed_factors = 100%Z.
Proof.
  assert (Hz : all_zero zero_factors) by (repeat split).
  assert (Hm : all_satisfied maxed_factors).
  { unfold all_satisfied, maxed_factors; simpl.
    repeat split; try lia.
    exists (AsDict {[ "risk_level" := "high" ]}). split; [left; reflexivity|].
    reflexivity. }
  split; [exact Hz|].
  split; [exact (proj1 (proj2 (risk_score_in_range zero_factors)) Hz)|].
  split; [exact Hm|].
  exact (proj2 (proj2 (proj2 (risk_score_in_range maxed_factors)) Hm)).
Defined.

End RiskScorerFacts.

(** ** Version comparison *)

Section VersionFacts.
Import DependencyScanner VersionSpec.

Lemma nth_pad (n : nat) (l : list Z) (i : nat) :
  nth i (pad n l) 0%Z = nth i l 0%Z.
Proof.
  unfold pad. destruct (Nat.lt_ge_cases i (length l)) as [Hlt | Hge].
  - now rewrite app_nth1.
  - rewrite app_nth2 by exact Hge.
    rewrite (nth_overflow l) by exact Hge.
    apply nth_repeat.
Qed.

Lemma length_pad (n : nat) (l : list Z) :
  (length l <= n)%nat -> length (pad n l) = n.
Proof. intros H. unfold pad. rewrite length_app, repeat_length. lia. Qed.

(** What Python's list ordering says on two lists of the same length. *)
Lemma list_compare_spec (a : list Z) :
  forall b, length a = length b ->
  match list_compare a b with
  | Eq => forall i, nth i a 0%Z = nth i b 0%Z
  | Lt => exists i, (forall j, (j < i)%nat -> nth j a 0%Z = nth j b 0%Z)
                    /\ (nth i a 0 < nth i b 0)%Z
  | Gt => exists i, (forall j, (j < i)%nat -> nth j a 0%Z = nth j b 0%Z)
                    /\ (nth i b 0 < nth i a 0)%Z
  end.
Proof.
  induction a as [| x a IH]; intros [| y b] Hlen; simpl in Hlen; try discriminate.
  - simpl. reflexivity.
  - simpl. destruct (Z.compare_spec x y) as [Heq | Hlt | Hgt].
    + subst y. specialize (IH b ltac:(lia)).
      destruct (list_compare a b).
      * intros [| i]; simpl; auto.
      * destruct IH as (i & Hpre & Hi). exists (S i). split; [|exact Hi].
        intros [| j] Hj; simpl; [reflexivity | apply Hpre; lia].
      * destruct IH as (i & Hpre & Hi). exists (S i). split; [|exact Hi].
        intros [| j] Hj; simpl; [reflexivity | apply Hpre; lia].
    + exists 0%nat. split; [intros j Hj; lia | exact Hlt].
    + exists 0%nat. split; [intros j Hj; lia | exact Hgt].
Qed.

Lemma first_difference_unique (o n : list Z) (i i' : nat) :
  first_difference o n i -> first_difference o n i' -> i = i'.
Proof.
  intros [Hpre Hi] [Hpre' Hi'].
  destruct (Nat.lt_trichotomy i i') as [Hlt | [Heq | Hgt]]; [|exact Heq|].
  - exfalso. apply Hi. apply Hpre'. exact Hlt.
  - exfalso. apply Hi'. apply Hpre. exact Hgt.
Qed.

(** The padded comparison of the source, read on the components. *)
Lemma compare_padded (old_parts new_parts : list Z) :
  let m := Nat.max (length old_parts) (length new_parts) in
  match list_compare (pad m new_parts) (pad m old_parts) with
  | Eq => forall i, component old_parts i = component new_parts i
  | Lt => exists i, first_difference old_parts new_parts i
                    /\ (component new_parts i < component old_parts i)%Z
  | Gt => exists i, first_difference old_parts new_parts i
                    /\ (component old_parts i < component new_parts i)%Z
  end.
Proof.
  intros m.
  assert (Hlen : length (pad m new_parts) = length (pad m old_parts))
    by (rewrite !length_pad; lia).
  pose proof (list_compare_spec _ _ Hlen) as Hspec.
  unfold first_difference, component.
  destruct (list_compare (pad m new_parts) (pad m old_parts)).
  - intros i. specialize (Hspec i). rewrite !nth_pad in Hspec. auto.
  - destruct Hspec as (i & Hpre & Hi). exists i. rewrite !nth_pad in Hi.
    repeat split; [|lia|lia].
    intros j Hj. specialize (Hpre j Hj). rewrite !nth_pad in Hpre. auto.
  - destruct Hspec as (i & Hpre & Hi). exists i. rewrite !nth_pad in Hi.
    repeat split; [|lia|lia].
    intros j Hj. specialize (Hpre j Hj). rewrite !nth_pad in Hpre. auto.
Qed.

(** C9. The change type compares the dotted numeric components pairwise, a
    missing trailing component counting as 0: the first position where the
    two versions differ decides between upgraded and downgraded, and the
    change is modified when no position differs.  Old 1.9.0 against new
    1.10.0 is upgraded: 9 and 10 are compared as numbers. *)
Theorem version_change_is_numeric (old_version new_version : string) :
  let old_parts := version_parts old_version in
  let new_parts := version_parts new_version in
  (_determine_version_change_type old_version new_version = "upgraded" <->
     exists i, first_difference old_parts new_parts i
               /\ (component old_parts i < component new_parts i)%Z) /\
  (_determine_version_change_type old_version new_version = "downgraded" <->
     exists i, first_difference old_parts new_parts i
               /\ (component new_parts i < component old_parts i)%Z) /\
  (_determine_version_change_type old_version new_version = "modified" <->
     forall i, component old_parts i = component new_parts i) /\
  version_parts "1.9.0" = [1; 9; 0]%Z /\
  version_parts "1.10.0" = [1; 10; 0]%Z /\
  _determine_version_change_type "1.9.0" "1.10.0" = "upgraded".
Proof.
  intros old_parts new_parts.
  pose proof (compare_padded old_parts new_parts) as Hcmp. cbv zeta in Hcmp.
  unfold _determine_version_change_type.
  fold old_parts new_parts.
  destruct (list_compare _ _).
  - (* equal precedence *)
    repeat split; try discriminate; try reflexivity; try (intros _; exact Hcmp).
    + intros (i & [_ Hne] & _). exfalso. apply Hne, Hcmp.
    + intros (i & [_ Hne] & _). exfalso. apply Hne, Hcmp.
  - (* the new version is smaller *)
    destruct Hcmp as (i & Hfd & Hlt).
    repeat split; try discriminate; try reflexivity.
    + intros (i' & Hfd' & Hlt').
      rewrite (first_difference_unique _ _ _ _ Hfd' Hfd) in Hlt'. lia.
    + intros _. exists i. split; assumption.
    + intros Heq. destruct Hfd as [_ Hne]. exfalso. apply Hne, Heq.
  - (* the new version is greater *)
    destruct Hcmp as (i & Hfd & Hlt).
    repeat split; try discriminate; try reflexivity.
    + intros _. exists i. split; assumption.
    + intros (i' & Hfd' & Hlt').
      rewrite (first_difference_unique _ _ _ _ Hfd' Hfd) in Hlt'. lia.
    + intros Heq. destruct Hfd as [_ Hne]. exfalso. apply Hne, Heq.
Qed.

Lemma version_change_is_numeric_witness :
  exists i, VersionSpec.first_difference [1; 9; 0]%Z [1; 10; 0]%Z i
            /\ (VersionSpec.component [1; 9; 0]%Z i
                < VersionSpec.component [1; 10; 0]%Z i)%Z.
Proof.
  exact (proj1 (proj1 (version_change_is_numeric "1.9.0" "1.10.0")) eq_refl).
Defined.

End VersionFacts.

(** ** Secret scanner: destination line numbers *)

Section HunkHeaderFacts.
Import Re ReAux SecretScanner DiffSpec.

Lemma hunk_pattern_eq :
  hunk_pattern = Seq (Chr is_plus) (Group 1 (Rep (Chr digit) 1 None)).
Proof. reflexivity. Qed.

(** The search moves over a prefix that holds no plus sign. *)
Lemma search_from_skip (pre : string) :
  forall p s,
  Py.forallb_str (fun c => negb (is_plus c)) pre = true ->
  search_from hunk_pattern p (pre +:+ s)
  = search_from hunk_pattern (p + String.length pre) s.
Proof.
  induction pre as [| c pre IH]; intros p s Hpre.
  - rewrite append_nil. simpl. now rewrite Nat.add_0_r.
  - simpl in Hpre. apply andb_true_iff in Hpre as [Hc Hpre].
    rewrite append_cons.
    cbn [search_from]. unfold match_at at 1. rewrite hunk_pattern_eq.
    cbn [run Re.rest].
    apply negb_true_iff in Hc. rewrite Hc.
    rewrite <- hunk_pattern_eq, IH by exact Hpre.
    simpl. f_equal. lia.
Qed.

(** At a plus sign followed by a run of digits the pattern matches the sign
    and the whole run, and group 1 is the run. *)
Lemma match_at_plus_digits (p : nat) (c tl : string) :
  Py.forallb_str digit c = true ->
  c <> EmptyString ->
  stops digit tl ->
  match_at hunk_pattern p ("+" +:+ c +:+ tl)
  = Some (RMatch p ("+" +:+ c) [(1%nat, c)]).
Proof.
  intros Hc Hne Hstop.
  unfold match_at. rewrite hunk_pattern_eq.
  cbn [run Re.rest Re.pos Re.caps String.append].
  rewrite !append_cons, append_nil.
  cbn [run Re.rest Re.pos Re.caps is_plus Ascii.eqb Bool.eqb].
  erewrite (rep_loop_class digit (run (Chr digit))); eauto.
  - unfold set_cap. cbn [Re.pos Re.rest Re.caps].
    replace (S p + String.length c - S p)%nat with (String.length c) by lia.
    rewrite take_append.
    replace (S p + String.length c - p)%nat with (S (String.length c)) by lia.
    cbn [take]. rewrite take_append. reflexivity.
  - rewrite length_append. lia.
  - destruct c; [congruence | simpl; lia].
Qed.

(** The line number a hunk header points to: a header whose first plus sign
    starts a run of digits [c] has target [int(c)]. *)
Lemma hunk_target_after (pre c tl : string) :
  Py.forallb_str (fun x => negb (is_plus x)) pre = true ->
  Py.forallb_str digit c = true ->
  c <> EmptyString ->
  stops digit tl ->
  hunk_target (pre +:+ "+" +:+ c +:+ tl) = Some (Py.int c).
Proof.
  intros Hpre Hc Hne Hstop.
  unfold hunk_target, search.
  rewrite search_from_skip by exact Hpre.
  destruct c as [| x c]; [congruence|].
  change ("+" +:+ String x c +:+ tl) with (String "+" (String x (c +:+ tl))).
  cbn [search_from].
  change (String "+" (String x (c +:+ tl))) with ("+" +:+ String x c +:+ tl).
  rewrite match_at_plus_digits by assumption.
  reflexivity.
Qed.

Lemma hunk_header_target (a b c d : string) :
  digits a -> digits b -> digits c -> c <> EmptyString ->
  hunk_target (hunk_header a b c d) = Some (Py.int c).
Proof.
  intros Ha Hb Hc Hne. unfold hunk_header.
  replace ("@@ -" +:+ a +:+ "," +:+ b +:+ " +" +:+ c +:+ "," +:+ d +:+ " @@")
    with (("@@ -" +:+ a +:+ "," +:+ b +:+ " ") +:+ "+" +:+ c +:+ ("," +:+ d +:+ " @@")).
  - apply hunk_target_after; try assumption.
    + rewrite !forallb_str_append.
      assert (Hd : forall s, digits s ->
                Py.forallb_str (fun x => negb (is_plus x)) s = true).
      { intros s. unfold digits. induction s as [| x s IH]; [reflexivity|].
        simpl. intros H. apply andb_true_iff in H as [Hx Hs].
        rewrite (IH Hs), andb_true_r.
        unfold is_plus. destruct (Ascii.eqb_spec "+" x) as [<- | _];
          [discriminate Hx | reflexivity]. }
      rewrite (Hd a Ha), (Hd b Hb). reflexivity.
    + reflexivity.
  - rewrite !append_assoc. reflexivity.
Qed.

End HunkHeaderFacts.

Section ScanDiffFacts.
Import Re ReAux SecretScanner DiffSpec.

(** The loop of [scan_diff] appends, to what it has found so far, the
    findings of the added lines under their destination numbers. *)
Lemma scan_diff_loop (fname : string) (lines : list string) :
  forall counter found,
  snd (fold_left (scan_diff_step fname) lines (counter, found))
  = found ++ flat_map (scan_numbered fname) (numbered_added_lines lines counter).
Proof.
  induction lines as [| line lines IH]; intros counter found.
  - simpl. now rewrite app_nil_r.
  - cbn [fold_left numbered_added_lines].
    unfold scan_diff_step at 2, classify.
    destruct (Py.startswith line "@@").
    { destruct (hunk_target line); apply IH. }
    destruct (Py.startswith line "+" && negb (Py.startswith line "+++")).
    { cbn [flat_map]. unfold scan_numbered at 1. cbn [fst snd].
      destruct (_is_safe_line (Py.tail line) fname).
      - apply IH.
      - rewrite IH. now rewrite <- app_assoc. }
    destruct (Py.startswith line "-"); apply IH.
Qed.

(** C5. [scan_diff] gives destination line numbers with a running counter:
    a hunk header [@@ -a,b +c,d @@] resets it to [c - 1], a context line and
    an added line increment it, a deleted line does not, and only added lines
    are scanned, each under the number it gets.  On the diff for [config.py]
    made of the header [@@ -10,0 +10,3 @@] and the added line
    [password = "Sup3rSecret!"] the result is one finding, at line 10, of
    medium severity. *)
Theorem scan_diff_numbers_added_lines :
  (forall diff_content fname,
     _is_binary_file fname = false ->
     scan_diff diff_content fname
     = flat_map (scan_numbered fname)
                (numbered_added_lines (Py.lines diff_content) 0)) /\
  (forall a b c d,
     digits a -> digits b -> digits c -> c <> EmptyString ->
     classify (hunk_header a b c d) = HunkHeader (Some (Py.int c))) /\
  scan_diff password_diff "config.py"
  = [ {| pattern_type := "Password"; sd_filename := "config.py";
         line_number := 10; sd_severity := "medium" |} ].
Proof.
  split; [|split].
  - intros diff_content fname Hbin. unfold scan_diff. rewrite Hbin.
    apply (scan_diff_loop fname (Py.lines diff_content) 0%Z []).
  - intros a b c d Ha Hb Hc Hne. unfold classify.
    rewrite hunk_header_target by assumption.
    reflexivity.
  - vm_compute. reflexivity.
Qed.

Lemma scan_diff_numbers_added_lines_witness :
  scan_diff password_diff "config.py"
  = flat_map (scan_numbered "config.py")
             (numbered_added_lines (Py.lines password_diff) 0)
  /\ classify (hunk_header "10" "0" "10" "3") = HunkHeader (Some 10%Z).
Proof.
  split.
  - apply (proj1 scan_diff_numbers_added_lines). reflexivity.
  - apply (proj1 (proj2 scan_diff_numbers_added_lines) "10" "0" "10" "3");
      [reflexivity | reflexivity | reflexivity | discriminate].
Defined.

End ScanDiffFacts.

(** ** Secret scanner: placeholder markers *)

Section PlaceholderFacts.
Import SecretScanner PlaceholderSpec.

Lemma lower_char_not_upper (c : ascii) : Py.is_upper (Py.lower_char c) = false.
Proof.
  destruct c as [[] [] [] [] [] [] [] []]; vm_compute; reflexivity.
Qed.

Lemma lower_has_no_upper (s : string) :
  Py.existsb_str Py.is_upper (Py.lower s) = false.
Proof.
  induction s as [| c s IH]; [reflexivity|].
  simpl. now rewrite lower_char_not_upper, IH.
Qed.

Lemma startswith_head (s : string) (c : ascii) (m : string) :
  Py.startswith s (String c m) = true ->
  exists s', s = String c s'.
Proof.
  destruct s as [| x s]; simpl; [discriminate|].
  intros H. apply andb_true_iff in H as [Hx _].
  apply Ascii.eqb_eq in Hx. subst x. now exists s.
Qed.

(** A marker that starts with an upper-case letter is not found in a
    lower-cased line. *)
Lemma upper_marker_not_in_lower (c : ascii) (m line : string) :
  Py.is_upper c = true ->
  Py.contains (String c m) (Py.lower line) = false.
Proof.
  intros Hc. pose proof (lower_has_no_upper line) as Hno.
  induction (Py.lower line) as [| x t IH]; [reflexivity|].
  simpl in Hno. apply orb_false_iff in Hno as [Hx Ht].
  cbn [Py.contains]. rewrite (IH Ht), orb_false_r.
  destruct (Py.startswith (String x t) (String c m)) eqn:E; [|reflexivity].
  apply startswith_head in E as [s' E]. injection E as -> _. congruence.
Qed.

(** A line that holds a lower-case marker is skipped. *)
Lemma lower_case_marker_is_safe (line fname m : string) :
  In m lower_case_markers ->
  Py.contains m (Py.lower (Py.strip line)) = true ->
  _is_safe_line line fname = true.
Proof.
  intros Hin Hm. unfold _is_safe_line.
  destruct (Py.strip line) as [| c s] eqn:E; [reflexivity|].
  repeat match goal with |- context [if ?b then true else _] => destruct b; [reflexivity|] end.
  unfold Py.any_in. apply existsb_exists. exists m. split; [|exact Hm].
  unfold lower_case_markers in Hin. unfold safe_markers. simpl in *. tauto.
Qed.

(** C6 (the code departs from it). The markers [YOUR_API_KEY],
    [INSERT_KEY_HERE] and [REPLACE_WITH] are looked for in the lower-cased
    line and so are never found: the line [password = "YOUR_API_KEY"] is not
    skipped and yields a finding, in [scan_content] and in [scan_diff].  The
    line [api_key = "YOUR_API_KEY"] is not skipped either; it yields no
    finding only because its value is shorter than the 16 characters the API
    key pattern asks for. *)
Theorem upper_case_marker_not_skipped :
  (forall line,
     Py.contains "YOUR_API_KEY" (Py.lower line) = false /\
     Py.contains "INSERT_KEY_HERE" (Py.lower line) = false /\
     Py.contains "REPLACE_WITH" (Py.lower line) = false) /\
  Py.contains "YOUR_API_KEY" password_placeholder = true /\
  _is_safe_line password_placeholder "config.py" = false /\
  scan_content password_placeholder "config.py"
  = [ {| pattern_type := "Password"; sd_filename := "config.py";
         line_number := 1; sd_severity := "medium" |} ] /\
  scan_diff ("+" +:+ password_placeholder) "config.py"
  = [ {| pattern_type := "Password"; sd_filename := "config.py";
         line_number := 1; sd_severity := "medium" |} ] /\
  _is_safe_line api_key_placeholder "config.py" = false /\
  scan_content api_key_placeholder "config.py" = [].
Proof.
  split.
  - intros line. repeat split; apply upper_marker_not_in_lower; reflexivity.
  - repeat split; vm_compute; reflexivity.
Qed.

End PlaceholderFacts.

(** ** The versions of the pinned-version list are not empty *)

Section RequirementFacts.
Import Re ReAux DependencyScanner.

Lemma run_seq_group (i : nat) (r x : regex) (st : mstate)
  (k : mstate -> option mstate) (m : mstate) :
  run (Seq (Group i r) x) st k = Some m ->
  exists st1, advances st st1 /\ run x (set_cap i st st1) k = Some m.
Proof.
  intros H.
  change (run r st (fun st' => run x (set_cap i st st') k) = Some m) in H.
  now apply run_advances in H.
Qed.

Lemma run_seq_group_plus (i : nat) (p : ascii -> bool) (x : regex) (st : mstate)
  (k : mstate -> option mstate) (m : mstate) :
  run (Seq (Group i (Rep (Chr p) 1 None)) x) st k = Some m ->
  exists st1, advances st st1 /\ (pos st < pos st1)%nat
              /\ run x (set_cap i st st1) k = Some m.
Proof.
  intros H.
  change (rep_loop (run (Chr p)) (fun st' => run x (set_cap i st st') k)
            (S (String.length (Re.rest st))) 1 None st = Some m) in H.
  apply (rep_loop_advances _ _ (run_advances (Chr p))) in H
    as (st1 & Hadv & Hk & Hlt).
  exists st1. split; [exact Hadv|]. split; [apply Hlt; lia | exact Hk].
Qed.

Lemma requirement_pattern_eq :
  requirement_pattern
  = Seq Bol (Seq (Group 1 (Rep (Chr name_char) 1 None))
       (Seq (Group 2 (Rep (Chr (one_of "><=~!")) 1 None))
          (Seq (Group 3 (Rep (Chr dot) 1 None)) Eol))).
Proof. reflexivity. Qed.

(** On a stripped line, the version the requirement pattern captures keeps
    a character after it is stripped. *)
Lemma requirement_version_nonempty (line0 : string) (m : rmatch) (v : string) :
  rematch requirement_pattern (Py.strip line0) = Some m ->
  group 3 m = Some v ->
  Py.strip v <> EmptyString.
Proof.
  unfold rematch, match_at. rewrite requirement_pattern_eq.
  set (line := Py.strip line0).
  destruct (run _ (MState 0 line []) Some) as [stf|] eqn:Hrun; [|discriminate].
  intros [= <-]. unfold group. cbn [m_caps].
  change (run (Seq (Group 1 (Rep (Chr name_char) 1 None))
                 (Seq (Group 2 (Rep (Chr (one_of "><=~!")) 1 None))
                    (Seq (Group 3 (Rep (Chr dot) 1 None)) Eol)))
            (MState 0 line []) Some = Some stf) in Hrun.
  apply run_seq_group in Hrun as (st1 & (w1 & Hr1 & _) & Hrun).
  apply run_seq_group in Hrun as (st2 & (w2 & Hr2 & _) & Hrun).
  apply run_seq_group_plus in Hrun as (st3 & (w3 & Hr3 & Hp3) & Hlt & Hrun).
  cbn [run] in Hrun.
  destruct (at_eol _) eqn:Heol; [|discriminate]. injection Hrun as <-.
  unfold set_cap at 1. cbn [Re.caps assoc Nat.eqb].
  intros [= <-].
  cbn [set_cap Re.rest Re.pos] in *.
  replace (pos st3 - pos st2)%nat with (String.length w3) by lia.
  rewrite Hr3, take_append.
  (* the line is w1 w2 w3 followed by the end of line *)
  assert (Hline : line = (w1 +:+ w2) +:+ w3 +:+ Re.rest st3)
    by (rewrite append_assoc, <- Hr3, <- Hr2; exact Hr1).
  assert (Hw3 : w3 <> EmptyString) by (destruct w3; [simpl in Hp3; lia | discriminate]).
  assert (Hrev : Py.rev line
                 = Py.rev (Re.rest st3) +:+ Py.rev w3 +:+ Py.rev (w1 +:+ w2)).
  { rewrite Hline, !rev_append. now rewrite append_assoc. }
  apply strip_nonempty.
  rewrite <- existsb_str_rev.
  destruct (Re.rest st3) as [| e [| e' tl]]; cbn [at_eol] in Heol;
    [| |discriminate].
  - (* the match ends the line *)
    rewrite append_nil in Hrev.
    destruct (Py.rev w3) as [| d u] eqn:Hd.
    { exfalso. apply Hw3. rewrite <- (rev_involutive w3), Hd. reflexivity. }
    rewrite append_cons in Hrev. apply rev_strip_head in Hrev.
    simpl. now rewrite Hrev.
  - (* a newline cannot end a stripped line *)
    apply Ascii.eqb_eq in Heol. subst e.
    change (Py.rev (String Py.newline EmptyString) +:+ Py.rev w3 +:+ Py.rev (w1 +:+ w2))
      with (String Py.newline (Py.rev w3 +:+ Py.rev (w1 +:+ w2))) in Hrev.
    apply rev_strip_head in Hrev. discriminate Hrev.
Qed.

Lemma parse_python_line_nonempty (packages : gmap string string) (line : string) :
  map_Forall (fun _ v => v <> EmptyString) packages ->
  map_Forall (fun _ v => v <> EmptyString) (parse_python_line packages line).
Proof.
  intros Hall. unfold parse_python_line.
  destruct (String.eqb (Py.strip line) EmptyString
            || Py.startswith (Py.strip line) "#"); [exact Hall|].
  destruct (rematch requirement_pattern (Py.strip line)) as [m|] eqn:Hm.
  - destruct (group 1 m) as [package|]; [|exact Hall].
    destruct (group 3 m) as [version|] eqn:Hv; [|exact Hall].
    apply map_Forall_insert_2; [|exact Hall].
    eapply requirement_version_nonempty; eassumption.
  - destruct (rematch bare_name_pattern (Py.strip line)); [|exact Hall].
    apply map_Forall_insert_2; [discriminate | exact Hall].
Qed.

(** Every version of a parsed map is a non-empty text. *)
Lemma parsed_version_nonempty (lines : list string) (pkg v : string) :
  _parse_python_packages lines !! pkg = Some v -> v <> EmptyString.
Proof.
  unfold _parse_python_packages.
  assert (H : forall packages,
            map_Forall (fun _ v => v <> EmptyString) packages ->
            map_Forall (fun _ v => v <> EmptyString)
                       (fold_left parse_python_line lines packages)).
  { induction lines as [| line lines IH]; intros packages Hall; [exact Hall|].
    simpl. apply IH, parse_python_line_nonempty, Hall. }
  intros Hv. exact (H ∅ (map_Forall_empty _) pkg v Hv).
Qed.

End RequirementFacts.

(** ** Dependency manifests *)

Section ManifestFacts.
Import Re DependencyScanner ManifestSpec.

Lemma truthy_some (s : string) : s <> EmptyString -> Py.truthy (Some s) = true.
Proof. destruct s; [congruence | reflexivity]. Qed.

Lemma in_all_packages (added removed : gmap string string) (pkg : string) :
  is_Some (added !! pkg) \/ is_Some (removed !! pkg) ->
  In pkg (elements (dom added ∪ dom removed : gset string)).
Proof.
  intros H. apply list_elem_of_In, elem_of_elements, elem_of_union.
  destruct H as [H | H]; [left | right]; now apply elem_of_dom.
Qed.

(** Every change reported by a handler that reads added lines only is an
    addition, and comes from a plus line of the patch. *)
Lemma added_only_changes (keep : string -> bool) (pattern : regex)
  (accept : string -> bool) (fname : string) (ctx : PRContext) (c : DependencyChange) :
  In c (added_only keep pattern accept fname ctx) ->
  change_type c = "added" /\ old_version c = None /\
  exists p line,
    patch_of fname ctx = Some p /\ In line (Py.lines p) /\ keep line = true.
Proof.
  unfold added_only. destruct (patch_of fname ctx) as [p|]; [|intros []].
  intros Hin. apply in_flat_map in Hin as (line & Hline & Hin).
  destruct (keep line) eqn:Hkeep; [|destruct Hin].
  destruct (search pattern line) as [m|]; [|destruct Hin].
  destruct (group 1 m) as [package|]; [|destruct Hin].
  destruct (group 2 m) as [version|]; [|destruct Hin].
  destruct (accept package); [|destruct Hin].
  destruct Hin as [<- | []]. repeat split. now exists p, line.
Qed.

Lemma keeps_plus_lines (fname content : string) (ctx : PRContext) (c : DependencyChange) :
  added_only_manifest fname ->
  In c (analyze_dependency_file fname content ctx) ->
  change_type c = "added" /\ old_version c = None /\
  exists p line,
    patch_of fname ctx = Some p /\ In line (Py.lines p)
    /\ Py.startswith line "+" = true.
Proof.
  intros Hname Hin.
  assert (Hkeep : forall keep pattern accept,
            (forall line, keep line = true -> Py.startswith line "+" = true) ->
            In c (added_only keep pattern accept fname ctx) ->
            change_type c = "added" /\ old_version c = None /\
            exists p line,
              patch_of fname ctx = Some p /\ In line (Py.lines p)
              /\ Py.startswith line "+" = true).
  { intros keep pattern accept Hplus Hc.
    apply added_only_changes in Hc as (H1 & H2 & p & line & Hp & Hl & Hk).
    repeat split; try assumption. exists p, line. auto. }
  destruct Hname as [-> | [-> | [-> | [-> | ->]]]];
    (eapply Hkeep; [|exact Hin]);
    intros line Hk; apply andb_true_iff in Hk as [Hk _];
    try (apply andb_true_iff in Hk as [Hk _]); exact Hk.
Qed.

Lemma package_change_classified (added removed : gmap string string) (pkg : string) :
  map_Forall (fun _ v => v <> EmptyString) added ->
  map_Forall (fun _ v => v <> EmptyString) removed ->
  package_change added removed pkg
  = option_list (classified (removed !! pkg) (added !! pkg) pkg).
Proof.
  intros Ha Hr. unfold package_change, classified.
  destruct (removed !! pkg) as [o|] eqn:Ho, (added !! pkg) as [n|] eqn:Hn;
    cbn [Py.truthy andb negb option_list];
    try (pose proof (Hr _ _ Ho)); try (pose proof (Ha _ _ Hn));
    try (destruct o; [congruence|]); try (destruct n; [congruence|]);
    reflexivity.
Qed.

Lemma parsed_versions_nonempty (lines : list string) :
  map_Forall (fun _ v => v <> EmptyString) (_parse_python_packages lines).
Proof. intros pkg v H. exact (parsed_version_nonempty lines pkg v H). Qed.

(** One record at most for a name, and the name it carries. *)
Lemma classified_package (old new : option string) (pkg : string) (c : DependencyChange) :
  classified old new pkg = Some c -> package c = pkg.
Proof.
  unfold classified. destruct old, new; intros [= <-]; reflexivity.
Qed.

Lemma classified_names_nodup (f : string -> option DependencyChange)
  (names : list string) :
  (forall pkg c, f pkg = Some c -> package c = pkg) ->
  List.NoDup names ->
  List.NoDup (map package (flat_map (fun pkg => option_list (f pkg)) names)).
Proof.
  intros Hf Hnd. induction Hnd as [| pkg names Hnot Hnd IH]; [constructor|].
  cbn [flat_map]. destruct (f pkg) as [c|] eqn:Hc; cbn [option_list app map];
    [|exact IH].
  constructor; [|exact IH].
  rewrite (Hf _ _ Hc). intros Hin. apply Hnot.
  apply in_map_iff in Hin as (c' & Hp & Hin).
  apply in_flat_map in Hin as (pkg' & Hpkg' & Hin).
  destruct (f pkg') as [c''|] eqn:Hc'; [|destruct Hin].
  destruct Hin as [<- | []]. rewrite (Hf _ _ Hc') in Hp. now subst pkg'.
Qed.

(** C4, as the code has it. The handler of the plain-text pinned-version
    list parses the added and the removed lines of the patch into two maps
    from names to versions.  Its result is exactly what the specification
    says of the two maps: a record is reported if and only if it is the
    record of some name -- the version change, typed by the comparison of the
    two versions, for a name in both maps, the addition for a name in the
    added map only, the removal for a name in the removed map only -- and no
    name is reported twice.  The handlers of the three other formats read the
    added lines only: every change they report is an addition without an old
    version. *)
Theorem manifest_changes_classified (ctx : PRContext) (fname content : string) :
  (forall p,
     requirements_manifest fname ->
     patch_of fname ctx = Some p ->
     let added_packages := _parse_python_packages (added_lines p) in
     let removed_packages := _parse_python_packages (removed_lines p) in
     List.NoDup (map package (analyze_dependency_file fname content ctx)) /\
     (forall c,
        In c (analyze_dependency_file fname content ctx) <->
        exists pkg,
          classified (removed_packages !! pkg) (added_packages !! pkg) pkg
          = Some c)) /\
  (forall c,
     added_only_manifest fname ->
     In c (analyze_dependency_file fname content ctx) ->
     change_type c = "added" /\ old_version c = None /\
     exists p line,
       patch_of fname ctx = Some p /\ In line (Py.lines p)
       /\ Py.startswith line "+" = true).
Proof.
  split.
  - intros p Hreq Hpatch added_packages removed_packages.
    assert (Hrun : analyze_dependency_file fname content ctx
                   = flat_map
                       (fun pkg =>
                          option_list (classified (removed_packages !! pkg)
                                                  (added_packages !! pkg) pkg))
                       (elements (dom added_packages ∪ dom removed_packages
                                  : gset string))).
    { unfold analyze_dependency_file. unfold requirements_manifest in Hreq.
      rewrite Hreq. unfold _analyze_python_requirements. rewrite Hpatch.
      apply flat_map_ext. intros pkg.
      apply package_change_classified; apply parsed_versions_nonempty. }
    rewrite Hrun. split.
    + apply (classified_names_nodup
               (fun pkg => classified (removed_packages !! pkg)
                                      (added_packages !! pkg) pkg)).
      * intros pkg c. apply classified_package.
      * apply NoDup_ListNoDup, NoDup_elements.
    + intros c. split.
      * intros Hin. apply in_flat_map in Hin as (pkg & _ & Hin).
        exists pkg.
        destruct (classified _ _ pkg) as [c'|]; [|destruct Hin].
        destruct Hin as [<- | []]. reflexivity.
      * intros (pkg & Hc). apply in_flat_map. exists pkg. split.
        -- apply in_all_packages.
           unfold classified in Hc.
           destruct (removed_packages !! pkg), (added_packages !! pkg);
             try discriminate Hc; eauto.
        -- rewrite Hc. left. reflexivity.
  - intros c Hname Hin. exact (keeps_plus_lines fname content ctx c Hname Hin).
Qed.

Lemma manifest_changes_classified_witness :
  In {| package := "flask"; old_version := Some "1.9.0";
        new_version := Some "1.10.0"; change_type := "upgraded";
        dep_risk_level := "high" |}
     (analyze_dependency_file "requirements.txt" "flask==1.10.0" requirements_ctx) /\
  In {| package := "cryptography"; old_version := None;
        new_version := Some "41.0.0"; change_type := "added";
        dep_risk_level := "high" |}
     (analyze_dependency_file "requirements.txt" "flask==1.10.0" requirements_ctx) /\
  In {| package := "six"; old_version := Some "1.16.0";
        new_version := None; change_type := "removed";
        dep_risk_level := "low" |}
     (analyze_dependency_file "requirements.txt" "flask==1.10.0" requirements_ctx) /\
  List.NoDup (map package
                (analyze_dependency_file "requirements.txt" "flask==1.10.0"
                   requirements_ctx)).
Proof.
  pose proof (proj1 (manifest_changes_classified requirements_ctx
                       "requirements.txt" "flask==1.10.0")
                requirements_patch ltac:(reflexivity) ltac:(reflexivity))
    as [Hnodup H].
  split; [|split; [|split]].
  - apply (proj2 (H _)). exists "flask". vm_compute. reflexivity.
  - apply (proj2 (H _)). exists "cryptography". vm_compute. reflexivity.
  - apply (proj2 (H _)). exists "six". vm_compute. reflexivity.
  - exact Hnodup.
Defined.

(** What the specification says of the four formats does not hold for the
    structured package manifest: [lodash] is in the removed and in the added
    lines of the patch and is reported as added, not as a version change,
    and the removal of [left-pad] is not reported. *)
Lemma package_json_reports_additions_only :
  analyze_dependency_file "package.json" "{}" package_json_ctx
  = [ {| package := "lodash"; old_version := None;
         new_version := Some "4.17.21"; change_type := "added";
         dep_risk_level := "high" |} ] /\
  ~ (exists c, In c (analyze_dependency_file "package.json" "{}" package_json_ctx)
               /\ package c = "lodash"
               /\ (change_type c = "upgraded" \/ change_type c = "downgraded"
                   \/ change_type c = "modified")) /\
  ~ (exists c, In c (analyze_dependency_file "package.json" "{}" package_json_ctx)
               /\ change_type c = "removed").
Proof.
  assert (H : analyze_dependency_file "package.json" "{}" package_json_ctx
              = [ {| package := "lodash"; old_version := None;
                     new_version := Some "4.17.21"; change_type := "added";
                     dep_risk_level := "high" |} ])
    by (vm_compute; reflexivity).
  rewrite H. split; [reflexivity|]. split.
  - intros (c & [<- | []] & _ & [Hc | [Hc | Hc]]); discriminate Hc.
  - intros (c & [<- | []] & Hc); discriminate Hc.
Qed.

End ManifestFacts.

(** ** What the stages raise *)

Section RaisingFacts.

(** Every branch of the loop body reads [file.status.value] first. *)
Lemma categorize_file_raises (b : RepoScannerAgent.buckets) (file : PRFileModel) :
  RepoScannerAgent.categorize_file b file = Raises no_value_attribute.
Proof.
  unfold RepoScannerAgent.categorize_file, status_value.
  destruct (RepoScannerAgent._is_test_file _); [reflexivity|].
  destruct (RepoScannerAgent._is_doc_file _); reflexivity.
Qed.

(** The changelog is computed for an empty change set only. *)
Lemma categorize_changes_outcome (ctx : PRContext) :
  RepoScannerAgent._categorize_changes ctx
  = match files ctx with
    | [] => Returns (RepoScannerAgent.non_empty
                       (RepoScannerAgent.categorize_text ctx
                          RepoScannerAgent.empty_buckets))
    | _ :: _ => Raises no_value_attribute
    end.
Proof.
  unfold RepoScannerAgent._categorize_changes.
  destruct (files ctx) as [| file fs]; [reflexivity|].
  cbn [RepoScannerAgent.categorize_files].
  rewrite categorize_file_raises. reflexivity.
Qed.

(** A file with a patch makes [_analyze_file_for_tests] raise; a file
    without one yields nothing. *)
Lemma analyze_file_outcome (file : PRFileModel) (ctx : PRContext) :
  TestSynthesizerAgent._analyze_file_for_tests file ctx
  = if Py.truthy (patch file) then Raises no_value_attribute else Returns [].
Proof.
  unfold TestSynthesizerAgent._analyze_file_for_tests, patch_text, status_value.
  destruct (patch file) as [[| c p]|]; reflexivity.
Qed.

Lemma collect_from_outcome (fs : list PRFileModel) (ctx : PRContext) :
  TestSynthesizerAgent.collect_from fs ctx
  = if existsb PipelineSpec.analysed fs then Raises no_value_attribute
    else Returns [].
Proof.
  induction fs as [| file fs IH]; [reflexivity|].
  cbn [TestSynthesizerAgent.collect_from existsb].
  unfold PipelineSpec.analysed at 1.
  destruct (TestSynthesizerAgent._is_testable_file (filename file));
    cbn [andb orb]; [|exact IH].
  rewrite analyze_file_outcome.
  destruct (Py.truthy (patch file)); cbn [orb]; [reflexivity|].
  rewrite IH. destruct (existsb PipelineSpec.analysed fs); reflexivity.
Qed.

(** The [try] block of the change scanner. *)
Lemma repo_scanner_analysis (fl : Faults) (ctx : PRContext) :
  RepoScannerAgent.analysis fl ctx
  = match repo_scanner_exc fl, files ctx with
    | Some e, _ => Raises e
    | None, _ :: _ => Raises no_value_attribute
    | None, [] =>
        Returns {[ "changelog" :=
                     PChangelog (RepoScannerAgent.non_empty
                                   (RepoScannerAgent.categorize_text ctx
                                      RepoScannerAgent.empty_buckets));
                   "diff_stats" := PCounts (RepoScannerAgent.diff_stats ctx) ]}
    end.
Proof.
  unfold RepoScannerAgent.analysis, try_block.
  destruct (repo_scanner_exc fl); [reflexivity|].
  rewrite categorize_changes_outcome. destruct (files ctx); reflexivity.
Qed.

(** The [try] block of the test synthesizer: it raises, or it has nothing
    to suggest. *)
Lemma test_synthesizer_analysis (fl : Faults) (ctx : PRContext) :
  TestSynthesizerAgent.analysis fl ctx
  = match test_synthesizer_exc fl with
    | Some e => Raises e
    | None =>
        if existsb PipelineSpec.analysed (files ctx)
        then Raises no_value_attribute
        else Returns
               {[ "test_suggestions" := PSuggestions [];
                  "analysis_summary" :=
                    PCounts {[ "total_suggestions" := 0%Z;
                               "files_analyzed" :=
                                 len (List.filter
                                        (fun f => TestSynthesizerAgent._is_testable_file
                                                    (filename f))
                                        (files ctx));
                               "functions_identified" := 0%Z ]} ]}
    end.
Proof.
  unfold TestSynthesizerAgent.analysis, try_block,
    TestSynthesizerAgent.collect_suggestions.
  destruct (test_synthesizer_exc fl); [reflexivity|].
  rewrite collect_from_outcome.
  destruct (existsb PipelineSpec.analysed (files ctx)); reflexivity.
Qed.

End RaisingFacts.

(** ** The orchestrator's reading of the stage results *)

Section RunnerFacts.
Import Runner.

Lemma run_agents_repo_scanner fl ctx :
  run_agents fl ctx !! "repo_scanner" = Some (RepoScannerAgent.run fl ctx).
Proof. unfold run_agents, agents. simpl. by simplify_map_eq. Qed.

Lemma run_agents_risk_security fl ctx :
  run_agents fl ctx !! "risk_security" = Some (RiskSecurityAgent.run fl ctx).
Proof. unfold run_agents, agents. simpl. by simplify_map_eq. Qed.

Lemma run_agents_test_synthesizer fl ctx :
  run_agents fl ctx !! "test_synthesizer" = Some (TestSynthesizerAgent.run fl ctx).
Proof. unfold run_agents, agents. simpl. by simplify_map_eq. Qed.

Lemma run_agents_reviewer fl ctx :
  run_agents fl ctx !! "reviewer" = Some (ReviewerAgent.run fl ctx).
Proof. unfold run_agents, agents. simpl. by simplify_map_eq. Qed.

Lemma pipeline_risk_score fl ctx :
  risk_score (run_agent_pipeline fl ctx)
  = match risk_security_exc fl with
    | None =>
        RiskScorer.calculate_risk_score
          (RiskSecurityAgent.risk_factors_for ctx
             (RiskSecurityAgent._scan_for_secrets ctx)
             (RiskSecurityAgent._analyze_dependency_changes ctx))
    | Some _ => RiskSecurityAgent.basic_risk ctx
    end.
Proof.
  unfold run_agent_pipeline, combine. cbn [risk_score].
  unfold lookup_payload. rewrite run_agents_risk_security.
  unfold RiskSecurityAgent.run, RiskSecurityAgent.analysis, try_block.
  destruct (risk_security_exc fl); cbn [payload _create_result mret outcome_ret];
    by simplify_map_eq.
Qed.

End RunnerFacts.

(** ** Risk & Security stage: what reaches the scorer *)

Section RiskStageFacts.
Import Runner Samples.

Lemma no_model_is_high_risk (ds : list DependencyChange) :
  List.filter RiskScorer.is_high_risk_dict (map RiskScorer.AsModel ds) = [].
Proof. induction ds as [| d ds IH]; [reflexivity | exact IH]. Qed.

(** The score the stage computes is made of four bonuses only. *)
Lemma stage_score_formula (ctx : PRContext) (secrets : list SecretDetection)
  (deps : list DependencyChange) :
  RiskScorer.calculate_risk_score (RiskSecurityAgent.risk_factors_for ctx secrets deps)
  = ((if (0 <? len secrets) then 25 else 0)
     + (if (1000 <? sum_additions (files ctx)) then 10 else 0)
     + (if (0 <? len (List.filter
                        (fun f => RiskSecurityAgent._is_security_file (filename f))
                        (files ctx))) then 10 else 0)
     + (if (0 <? len (List.filter
                        (fun f => (200 <? additions f + deletions f))
                        (files ctx))) then 10 else 0))%Z.
Proof.
  unfold RiskScorer.calculate_risk_score, RiskScorer.raw_score,
    RiskSecurityAgent.risk_factors_for, RiskScorer.get0,
    RiskScorer.base_score, RiskScorer.max_score.
  cbn [RiskScorer.secrets_count RiskScorer.total_additions
       RiskScorer.dependency_changes RiskScorer.security_files_changed
       RiskScorer.large_files_changed RiskScorer.total_files
       RiskScorer.binary_files_changed RiskScorer.database_files_changed
       RiskScorer.security_config_files_changed
       RiskScorer.deployment_files_changed RiskScorer.large_deletions
       default from_option id].
  rewrite no_model_is_high_risk.
  change (0 <? length (@nil RiskScorer.dep_item))%nat with false.
  change (20 <? 0)%Z with false.
  change (0 <? 0)%Z with false.
  change (500 <? 0)%Z with false.
  unfold RiskScorer.add_if.
  repeat match goal with |- context [if ?b then _ else _] => destruct b end;
    reflexivity.
Qed.

(** C3 (the code departs from it). The stage hands the scorer five entries
    only: secrets, additions, the dependency changes, security files and
    large files; the dependency changes are model objects, which the scorer
    does not count.  So the score of the pipeline is made of four bonuses and
    a database, deployment, binary or security-configuration file adds
    nothing: the change set [infra_ctx] holds one of each and scores 0, while
    the narrative of the same run names them as risk factors. *)
Theorem stage_score_ignores_file_kinds :
  (forall fl ctx,
     risk_score (run_agent_pipeline fl ctx)
     = match risk_security_exc fl with
       | None =>
         ((if (0 <? len (RiskSecurityAgent._scan_for_secrets ctx)) then 25 else 0)
          + (if (1000 <? sum_additions (files ctx)) then 10 else 0)
          + (if (0 <? len (List.filter
                        (fun f => RiskSecurityAgent._is_security_file (filename f))
                        (files ctx))) then 10 else 0)
          + (if (0 <? len (List.filter
                        (fun f => (200 <? additions f + deletions f))
                        (files ctx))) then 10 else 0))%Z
       | Some _ => RiskSecurityAgent.basic_risk ctx
       end) /\
  RiskSecurityAgent._is_database_file "migrations/001_init.sql" = true /\
  risk_score (run_agent_pipeline no_faults migration_ctx) = 0%Z /\
  RiskSecurityAgent._is_deployment_file "Dockerfile" = true /\
  RiskSecurityAgent._is_binary_file "logo.png" = true /\
  risk_factors (run_agent_pipeline no_faults infra_ctx)
  = ["Security configuration changes detected in: config/app.yml";
     "Database/migration files modified: 1 files";
     "Deployment configuration changes: 1 files"] /\
  risk_score (run_agent_pipeline no_faults infra_ctx) = 0%Z.
Proof.
  split.
  - intros fl ctx. rewrite pipeline_risk_score.
    destruct (risk_security_exc fl); [reflexivity|].
    apply stage_score_formula.
  - repeat split; vm_compute; reflexivity.
Qed.

End RiskStageFacts.

(** ** The risk score of the report *)

Section ReportScoreFacts.
Import Runner Samples PipelineSpec.

Lemma sum_additions_nonneg (fs : list PRFileModel) :
  Forall (fun f => (0 <= additions f)%Z) fs -> (0 <= sum_additions fs)%Z.
Proof.
  induction 1 as [| f fs Hf _ IH]; simpl; lia.
Qed.

Lemma basic_risk_in_range (ctx : PRContext) :
  counts_nonneg ctx -> (0 <= RiskSecurityAgent.basic_risk ctx <= 100)%Z.
Proof.
  intros Hwf. unfold RiskSecurityAgent.basic_risk, len.
  pose proof (sum_additions_nonneg _ Hwf) as Hsum.
  assert (0 <= sum_additions (files ctx) / 100)%Z by (apply Z.div_pos; lia).
  lia.
Qed.

Lemma basic_risk_upper_bound (ctx : PRContext) :
  (RiskSecurityAgent.basic_risk ctx <= 100)%Z.
Proof. unfold RiskSecurityAgent.basic_risk. lia. Qed.

(** C10, as the code has it. The risk score of the final report is at most
    100 on every path.  On the normal path it lies between 0 and 100: the
    scorer clamps on both sides.  On the fallback path it is
    [min(100, 5 * files + additions // 100)], which has no lower clamp: it
    is at least 0 when no file carries a negative addition count.  A stage
    result without a [risk_score] key reads as 0. *)
Theorem final_score_in_range (fl : Faults) (ctx : PRContext) :
  (risk_score (run_agent_pipeline fl ctx) <= 100)%Z /\
  (risk_security_exc fl = None ->
     (0 <= risk_score (run_agent_pipeline fl ctx) <= 100)%Z) /\
  (forall e, risk_security_exc fl = Some e ->
     risk_score (run_agent_pipeline fl ctx)
     = Z.min 100 (len (files ctx) * 5 + sum_additions (files ctx) / 100)) /\
  (counts_nonneg ctx ->
     (0 <= risk_score (run_agent_pipeline fl ctx) <= 100)%Z) /\
  (forall results,
     lookup_payload results "risk_security" "risk_score" = None ->
     risk_score (combine ctx results) = 0%Z).
Proof.
  split; [|split; [|split; [|split]]].
  - rewrite pipeline_risk_score. destruct (risk_security_exc fl).
    + apply basic_risk_upper_bound.
    + apply calculate_risk_score_bounds.
  - intros Hnone. rewrite pipeline_risk_score, Hnone.
    apply calculate_risk_score_bounds.
  - intros e He. rewrite pipeline_risk_score, He. reflexivity.
  - intros Hwf. rewrite pipeline_risk_score. destruct (risk_security_exc fl).
    + apply basic_risk_in_range, Hwf.
    + apply calculate_risk_score_bounds.
  - intros results Hnone. unfold combine. cbn [risk_score].
    rewrite Hnone. reflexivity.
Qed.

Lemma final_score_in_range_witness :
  counts_nonneg migration_ctx /\
  (0 <= risk_score (run_agent_pipeline risk_stage_fails migration_ctx) <= 100)%Z /\
  (0 <= risk_score (run_agent_pipeline no_faults odd_counts_ctx) <= 100)%Z.
Proof.
  assert (Hwf : counts_nonneg migration_ctx).
  { unfold counts_nonneg. simpl. repeat constructor. simpl. lia. }
  split; [exact Hwf|]. split.
  - exact (proj1 (proj2 (proj2 (proj2
             (final_score_in_range risk_stage_fails migration_ctx)))) Hwf).
  - exact (proj1 (proj2 (final_score_in_range no_faults odd_counts_ctx)) eq_refl).
Defined.

(** The score is not in the range the specification gives on the fallback
    path of a change set with a negative addition count: one file, -1000
    additions, and the fallback computes [min(100, 5 - 10)]. *)
Lemma fallback_score_can_be_negative :
  risk_security_exc risk_stage_fails = Some "boom" /\
  additions (Samples.file "a.py" MODIFIED (-1000) 1000 None) = (-1000)%Z /\
  risk_score (run_agent_pipeline risk_stage_fails odd_counts_ctx) = (-5)%Z /\
  ~ (0 <= risk_score (run_agent_pipeline risk_stage_fails odd_counts_ctx) <= 100)%Z.
Proof.
  assert (H : risk_score (run_agent_pipeline risk_stage_fails odd_counts_ctx) = (-5)%Z)
    by (vm_compute; reflexivity).
  rewrite H. repeat split. lia.
Qed.

End ReportScoreFacts.

(** ** Stage failures *)

Section StageFailureFacts.
Import Runner Samples PipelineSpec.

Lemma collect_items_known (ctx : PRContext) :
  Forall (fun x => is_Some (ReviewerAgent.severity_rank (severity x)))
         (ReviewerAgent.collect_items ctx).
Proof.
  unfold ReviewerAgent.collect_items,
    ReviewerAgent._analyze_code_quality,
    ReviewerAgent._analyze_security_considerations,
    ReviewerAgent._analyze_performance_implications,
    ReviewerAgent._analyze_maintainability,
    ReviewerAgent._analyze_testing_coverage,
    ReviewerAgent._analyze_documentation,
    ReviewerAgent._analyze_breaking_changes, ReviewerAgent.when.
  cbv zeta.
  repeat first
    [ exact I
    | apply Forall_nil
    | apply Forall_app; split
    | apply Forall_cons; split; [eexists; reflexivity|]
    | match goal with |- Forall _ (if ?b then _ else _) => destruct b end ].
Qed.

(** The sort of the checklist never meets a severity it does not rank. *)
Lemma unknown_severity_none (ctx : PRContext) :
  ReviewerAgent.unknown_severity (ReviewerAgent.collect_items ctx) = None.
Proof.
  unfold ReviewerAgent.unknown_severity.
  pose proof (collect_items_known ctx) as Hknown.
  induction Hknown as [| x l [r Hr] _ IH]; [reflexivity|].
  simpl. rewrite Hr. exact IH.
Qed.

(** The [try] block of the reviewer raises under the oracle only. *)
Lemma reviewer_analysis (fl : Faults) (ctx : PRContext) :
  ReviewerAgent.analysis fl ctx
  = match reviewer_exc fl with
    | Some e => Raises e
    | None =>
        let checklist_items :=
          ReviewerAgent.sort_by_severity (ReviewerAgent.collect_items ctx) in
        Returns
          {[ "review_checklist" := PChecklist checklist_items;
             "analysis_summary" :=
               PCounts {[ "total_items" := len checklist_items;
                          "high_priority" :=
                            ReviewerAgent.count_severity "high" checklist_items;
                          "medium_priority" :=
                            ReviewerAgent.count_severity "medium" checklist_items;
                          "low_priority" :=
                            ReviewerAgent.count_severity "low" checklist_items ]} ]}
    end.
Proof.
  unfold ReviewerAgent.analysis, try_block.
  destruct (reviewer_exc fl); [reflexivity|].
  now rewrite unknown_severity_none.
Qed.

Lemma pipeline_changelog fl ctx :
  changelog (run_agent_pipeline fl ctx)
  = match repo_scanner_exc fl, files ctx with
    | None, [] =>
        RepoScannerAgent.non_empty
          (RepoScannerAgent.categorize_text ctx RepoScannerAgent.empty_buckets)
    | _, _ => ∅
    end.
Proof.
  unfold run_agent_pipeline, combine. cbn [changelog].
  unfold lookup_payload. rewrite run_agents_repo_scanner.
  unfold RepoScannerAgent.run. rewrite repo_scanner_analysis.
  destruct (repo_scanner_exc fl), (files ctx); cbn [payload _create_result];
    by simplify_map_eq.
Qed.

Lemma pipeline_risk_factors fl ctx :
  risk_factors (run_agent_pipeline fl ctx)
  = match risk_security_exc fl with
    | None =>
        RiskSecurityAgent.narrative ctx (RiskSecurityAgent._scan_for_secrets ctx)
          (RiskSecurityAgent._analyze_dependency_changes ctx)
    | Some _ => ["Unable to complete full security analysis"]
    end.
Proof.
  unfold run_agent_pipeline, combine. cbn [risk_factors].
  unfold lookup_payload. rewrite run_agents_risk_security.
  unfold RiskSecurityAgent.run, RiskSecurityAgent.analysis, try_block.
  destruct (risk_security_exc fl); cbn [payload _create_result mret outcome_ret];
    by simplify_map_eq.
Qed.

Lemma pipeline_secrets_detected fl ctx :
  secrets_detected (run_agent_pipeline fl ctx)
  = match risk_security_exc fl with
    | None => RiskSecurityAgent._scan_for_secrets ctx
    | Some _ => []
    end.
Proof.
  unfold run_agent_pipeline, combine. cbn [secrets_detected].
  unfold lookup_payload. rewrite run_agents_risk_security.
  unfold RiskSecurityAgent.run, RiskSecurityAgent.analysis, try_block.
  destruct (risk_security_exc fl); cbn [payload _create_result mret outcome_ret];
    by simplify_map_eq.
Qed.

Lemma pipeline_dependency_changes fl ctx :
  dependency_changes (run_agent_pipeline fl ctx)
  = match risk_security_exc fl with
    | None => RiskSecurityAgent._analyze_dependency_changes ctx
    | Some _ => []
    end.
Proof.
  unfold run_agent_pipeline, combine. cbn [dependency_changes].
  unfold lookup_payload. rewrite run_agents_risk_security.
  unfold RiskSecurityAgent.run, RiskSecurityAgent.analysis, try_block.
  destruct (risk_security_exc fl); cbn [payload _create_result mret outcome_ret];
    by simplify_map_eq.
Qed.

(** Whether the test synthesizer raises or not, the report has no test
    suggestion. *)
Lemma pipeline_test_suggestions fl ctx :
  test_suggestions (run_agent_pipeline fl ctx) = [].
Proof.
  unfold run_agent_pipeline, combine. cbn [test_suggestions].
  unfold lookup_payload. rewrite run_agents_test_synthesizer.
  unfold TestSynthesizerAgent.run. rewrite test_synthesizer_analysis.
  destruct (test_synthesizer_exc fl);
    [|destruct (existsb analysed (files ctx))];
    cbn [payload _create_result]; by simplify_map_eq.
Qed.

Lemma pipeline_review_checklist fl ctx :
  review_checklist (run_agent_pipeline fl ctx)
  = match reviewer_exc fl with
    | None => ReviewerAgent.sort_by_severity (ReviewerAgent.collect_items ctx)
    | Some _ =>
        [ReviewerAgent.item "General"
           "Standard code review (automated analysis failed)" "medium" None]
    end.
Proof.
  unfold run_agent_pipeline, combine. cbn [review_checklist].
  unfold lookup_payload. rewrite run_agents_reviewer.
  unfold ReviewerAgent.run. rewrite reviewer_analysis.
  unfold ReviewerAgent.failed.
  destruct (reviewer_exc fl); cbn [payload _create_result];
    by simplify_map_eq.
Qed.

(** The warnings of a stage result, from the outcome of its [try] block. *)
Lemma warnings_of_outcome (stage prefix : string)
  (o : outcome (gmap string pval)) (fallback : gmap string pval) :
  warnings (match o with
            | Returns payload => _create_result stage payload []
            | Raises e => _create_result stage fallback [prefix +:+ e]
            end)
  = match o with
    | Returns _ => []
    | Raises e => [prefix +:+ e]
    end.
Proof. destruct o; reflexivity. Qed.

(** C2. Every stage hands a result to the orchestrator, whatever its [try]
    block does: a block that raised gives exactly one warning, made of the
    prefix of the stage and the text of the exception, and a block that did
    not gives none.  What the blocks raise by themselves: the change scanner
    on every change set that is not empty and the test synthesizer on every
    change set with an accepted file whose patch is not empty (the access
    [file.status.value]); the two other blocks raise nothing.  A stage that
    raised does not touch the fields the other stages feed: each field of
    the report is the output, or the fallback, of its own stage. *)
Theorem stage_failure_is_isolated (fl : Faults) (ctx : PRContext) :
  let results := run_agents fl ctx in
  let report := run_agent_pipeline fl ctx in
  (exists r1 r2 r3 r4,
     results !! "repo_scanner" = Some r1 /\
     results !! "risk_security" = Some r2 /\
     results !! "test_synthesizer" = Some r3 /\
     results !! "reviewer" = Some r4 /\
     warnings r1 = match RepoScannerAgent.analysis fl ctx with
                   | Raises e => ["Error during repository scanning: " +:+ e]
                   | Returns _ => []
                   end /\
     warnings r2 = match RiskSecurityAgent.analysis fl ctx with
                   | Raises e => ["Error during security analysis: " +:+ e]
                   | Returns _ => []
                   end /\
     warnings r3 = match TestSynthesizerAgent.analysis fl ctx with
                   | Raises e => ["Error during test synthesis: " +:+ e]
                   | Returns _ => []
                   end /\
     warnings r4 = match ReviewerAgent.analysis fl ctx with
                   | Raises e => ["Error during review analysis: " +:+ e]
                   | Returns _ => []
                   end) /\
  (repo_scanner_exc fl = None ->
     (files ctx <> [] ->
        RepoScannerAgent.analysis fl ctx = Raises no_value_attribute) /\
     (files ctx = [] ->
        exists payload, RepoScannerAgent.analysis fl ctx = Returns payload)) /\
  (test_synthesizer_exc fl = None ->
     (existsb analysed (files ctx) = true ->
        TestSynthesizerAgent.analysis fl ctx = Raises no_value_attribute) /\
     (existsb analysed (files ctx) = false ->
        exists payload, TestSynthesizerAgent.analysis fl ctx = Returns payload)) /\
  (risk_security_exc fl = None ->
     exists payload, RiskSecurityAgent.analysis fl ctx = Returns payload) /\
  (reviewer_exc fl = None ->
     exists payload, ReviewerAgent.analysis fl ctx = Returns payload) /\
  changelog report
  = match repo_scanner_exc fl, files ctx with
    | None, [] =>
        RepoScannerAgent.non_empty
          (RepoScannerAgent.categorize_text ctx RepoScannerAgent.empty_buckets)
    | _, _ => ∅
    end /\
  risk_score report
  = match risk_security_exc fl with
    | None =>
        RiskScorer.calculate_risk_score
          (RiskSecurityAgent.risk_factors_for ctx
             (RiskSecurityAgent._scan_for_secrets ctx)
             (RiskSecurityAgent._analyze_dependency_changes ctx))
    | Some _ => RiskSecurityAgent.basic_risk ctx
    end /\
  risk_factors report
  = match risk_security_exc fl with
    | None =>
        RiskSecurityAgent.narrative ctx (RiskSecurityAgent._scan_for_secrets ctx)
          (RiskSecurityAgent._analyze_dependency_changes ctx)
    | Some _ => ["Unable to complete full security analysis"]
    end /\
  secrets_detected report
  = match risk_security_exc fl with
    | None => RiskSecurityAgent._scan_for_secrets ctx
    | Some _ => []
    end /\
  dependency_changes report
  = match risk_security_exc fl with
    | None => RiskSecurityAgent._analyze_dependency_changes ctx
    | Some _ => []
    end /\
  test_suggestions report = [] /\
  review_checklist report
  = match reviewer_exc fl with
    | None => ReviewerAgent.sort_by_severity (ReviewerAgent.collect_items ctx)
    | Some _ =>
        [ReviewerAgent.item "General"
           "Standard code review (automated analysis failed)" "medium" None]
    end.
Proof.
  intros results report. subst results report.
  split; [|split; [|split; [|split; [|split]]]].
  - exists (RepoScannerAgent.run fl ctx), (RiskSecurityAgent.run fl ctx),
      (TestSynthesizerAgent.run fl ctx), (ReviewerAgent.run fl ctx).
    rewrite run_agents_repo_scanner, run_agents_risk_security,
      run_agents_test_synthesizer, run_agents_reviewer.
    unfold RepoScannerAgent.run, RiskSecurityAgent.run,
      TestSynthesizerAgent.run, ReviewerAgent.run, ReviewerAgent.failed.
    repeat split.
    + now destruct (RepoScannerAgent.analysis fl ctx).
    + now destruct (RiskSecurityAgent.analysis fl ctx).
    + now destruct (TestSynthesizerAgent.analysis fl ctx).
    + now destruct (ReviewerAgent.analysis fl ctx).
  - intros Hnone. rewrite repo_scanner_analysis, Hnone. split.
    + intros Hfiles. destruct (files ctx); [congruence | reflexivity].
    + intros ->. eexists. reflexivity.
  - intros Hnone. rewrite test_synthesizer_analysis, Hnone. split.
    + intros ->. reflexivity.
    + intros ->. eexists. reflexivity.
  - intros Hnone. unfold RiskSecurityAgent.analysis, try_block. rewrite Hnone.
    eexists. reflexivity.
  - intros Hnone. rewrite reviewer_analysis, Hnone. eexists. reflexivity.
  - rewrite pipeline_changelog, pipeline_risk_score, pipeline_risk_factors,
      pipeline_secrets_detected, pipeline_dependency_changes,
      pipeline_test_suggestions, pipeline_review_checklist.
    repeat split.
Qed.

Lemma stage_failure_is_isolated_witness :
  warnings (RepoScannerAgent.run no_faults manifest_ctx)
  = ["Error during repository scanning: 'str' object has no attribute 'value'"] /\
  warnings (RiskSecurityAgent.run no_faults manifest_ctx) = [] /\
  RepoScannerAgent.analysis no_faults manifest_ctx = Raises no_value_attribute /\
  changelog (run_agent_pipeline no_faults manifest_ctx) = ∅ /\
  dependency_changes (run_agent_pipeline no_faults manifest_ctx)
  = [ {| package := "flask"; old_version := Some "1.0";
         new_version := Some "2.0.1"; change_type := "upgraded";
         dep_risk_level := "high" |} ].
Proof.
  pose proof (stage_failure_is_isolated no_faults manifest_ctx)
    as ((r1 & r2 & r3 & r4 & E1 & E2 & _ & _ & W1 & W2 & _ & _)
        & Hrepo & _ & _ & _ & Hlog & _ & _ & _ & Hdeps & _).
  rewrite run_agents_repo_scanner in E1. injection E1 as <-.
  rewrite run_agents_risk_security in E2. injection E2 as <-.
  pose proof (proj1 (Hrepo eq_refl) ltac:(discriminate)) as Hraise.
  split; [rewrite W1, Hraise; reflexivity|].
  split; [rewrite W2; reflexivity|].
  split; [exact Hraise|].
  split; [rewrite Hlog; reflexivity|].
  rewrite Hdeps. vm_compute. reflexivity.
Defined.

End StageFailureFacts.

(** ** Test suggestions *)

Section TestSuggestionFacts.
Import Re Runner TestSynthesizerAgent Samples PipelineSpec.

(** What the loop over the functions builds for one of them. *)
Lemma function_cases_built (file : PRFileModel) (p : string) (fi : function_info) :
  In fi (_extract_functions_from_patch p (extension (filename file))) ->
  In {| target_file := filename file;
        function_name := Some (fi_name fi);
        test_type := "positive";
        ts_description := "Test " +:+ fi_name fi +:+ " with valid inputs";
        rationale := "Ensure function works correctly with expected inputs";
        sample_stub := Some ("test_" +:+ fi_name fi +:+ "_valid_input()") |}
     (function_suggestions file p) /\
  In {| target_file := filename file;
        function_name := Some (fi_name fi);
        test_type := "negative";
        ts_description := "Test " +:+ fi_name fi +:+ " with invalid inputs";
        rationale := "Verify proper error handling for invalid inputs";
        sample_stub := Some ("test_" +:+ fi_name fi +:+ "_invalid_input()") |}
     (function_suggestions file p).
Proof.
  intros Hfi.
  assert (Hgen : forall s,
            In s [positive_case (filename file) (fi_name fi);
                  negative_case (filename file) (fi_name fi)] ->
            In s (function_suggestions file p)).
  { intros s Hs. unfold function_suggestions.
    apply in_flat_map. exists fi. split; [exact Hfi|].
    unfold _generate_function_test_suggestions.
    apply in_or_app. left. exact Hs. }
  split; apply Hgen; [left | right; left]; reflexivity.
Qed.

(** C8 (the code departs from it). For every function extracted from the
    patch of a file, the loop of [_analyze_file_for_tests] does put a
    positive-case and a negative-case suggestion for that function in its
    list.  The statement that follows the loop reads [file.status.value] and
    raises, for every file with a patch: the list never leaves the function,
    the stage takes its fallback, and the suggestions of the stage are empty
    -- on every change set, so also on the one made of [auth/login.py] with
    its function [login]. *)
Theorem function_suggestions_are_lost :
  (forall file p fi,
     In fi (_extract_functions_from_patch p (extension (filename file))) ->
     In {| target_file := filename file;
           function_name := Some (fi_name fi);
           test_type := "positive";
           ts_description := "Test " +:+ fi_name fi +:+ " with valid inputs";
           rationale := "Ensure function works correctly with expected inputs";
           sample_stub := Some ("test_" +:+ fi_name fi +:+ "_valid_input()") |}
        (function_suggestions file p) /\
     In {| target_file := filename file;
           function_name := Some (fi_name fi);
           test_type := "negative";
           ts_description := "Test " +:+ fi_name fi +:+ " with invalid inputs";
           rationale := "Verify proper error handling for invalid inputs";
           sample_stub := Some ("test_" +:+ fi_name fi +:+ "_invalid_input()") |}
        (function_suggestions file p)) /\
  (forall file ctx p,
     patch_text file = Some p ->
     _analyze_file_for_tests file ctx = Raises no_value_attribute) /\
  (forall ctx file,
     In file (files ctx) ->
     _is_testable_file (filename file) = true ->
     Py.truthy (patch file) = true ->
     TestSynthesizerAgent.run no_faults ctx
     = _create_result "test_synthesizer"
         {[ "test_suggestions" := PSuggestions [];
            "analysis_summary" := PError no_value_attribute ]}
         ["Error during test synthesis: " +:+ no_value_attribute]) /\
  (forall fl ctx, test_suggestions (run_agent_pipeline fl ctx) = []) /\
  _is_testable_file (filename login_file) = true /\
  map fi_name (_extract_functions_from_patch login_patch
                 (extension (filename login_file))) = ["login"] /\
  test_suggestions (run_agent_pipeline no_faults login_ctx) = [] /\
  warnings (TestSynthesizerAgent.run no_faults login_ctx)
  = ["Error during test synthesis: 'str' object has no attribute 'value'"].
Proof.
  split; [|split; [|split; [|split]]].
  - intros file p fi. apply function_cases_built.
  - intros file ctx p Hp. rewrite analyze_file_outcome.
    unfold patch_text in Hp. destruct (Py.truthy (patch file)); [reflexivity|].
    discriminate Hp.
  - intros ctx file Hin Htestable Hpatch.
    unfold TestSynthesizerAgent.run. rewrite test_synthesizer_analysis.
    cbn [no_faults test_synthesizer_exc].
    assert (Hex : existsb analysed (files ctx) = true).
    { apply existsb_exists. exists file. split; [exact Hin|].
      unfold analysed. now rewrite Htestable, Hpatch. }
    rewrite Hex. reflexivity.
  - intros fl ctx. apply pipeline_test_suggestions.
  - repeat split; vm_compute; reflexivity.
Qed.

End TestSuggestionFacts.

(** ** End to end: one added file [auth/login.py] *)

Section EndToEndFacts.
Import Re Runner Samples.

Lemma in_insert_by_rank (x y : ReviewChecklistItem) (l : list ReviewChecklistItem) :
  In y (ReviewerAgent.insert_by_rank x l) <-> y = x \/ In y l.
Proof.
  induction l as [| z l IH]; simpl.
  - intuition auto.
  - destruct (ReviewerAgent.rank_of x <=? ReviewerAgent.rank_of z)%nat; simpl.
    + intuition auto.
    + rewrite IH. intuition auto.
Qed.

(** Sorting the checklist keeps its items. *)
Lemma in_sort_by_severity (y : ReviewChecklistItem) (l : list ReviewChecklistItem) :
  In y (ReviewerAgent.sort_by_severity l) <-> In y l.
Proof.
  unfold ReviewerAgent.sort_by_severity.
  induction l as [| x l IH]; simpl; [reflexivity|].
  rewrite in_insert_by_rank, IH. intuition auto.
Qed.

(** C7 (the code departs from it). On a change set made of the one added
    file [auth/login.py], with 120 added and no deleted lines, whose patch
    holds no secret and has [def login(] as its first function signature, a
    run without outside faults gives: an empty changelog, no test
    suggestion, and one warning in the result of the change scanner and in
    the result of the test synthesizer -- both stages read
    [file.status.value], which raises, and take their fallback.  The
    high-severity Security item of the checklist that refers to
    [auth/login.py] is there and no secret is reported.  The risk score is
    0: the name matches none of the patterns of [_is_security_file], which
    is a test apart from [_is_auth_file]. *)
Theorem login_change_loses_changelog_and_suggestions (ctx : PRContext)
  (file : PRFileModel) (p : string) :
  files ctx = [file] ->
  filename file = "auth/login.py" ->
  status file = ADDED ->
  additions file = 120%Z ->
  deletions file = 0%Z ->
  patch_text file = Some p ->
  RiskSecurityAgent._scan_for_secrets ctx = [] ->
  let report := run_agent_pipeline no_faults ctx in
  changelog report = ∅ /\
  changelog report !! "features" = None /\
  test_suggestions report = [] /\
  warnings (RepoScannerAgent.run no_faults ctx)
  = ["Error during repository scanning: 'str' object has no attribute 'value'"] /\
  warnings (TestSynthesizerAgent.run no_faults ctx)
  = ["Error during test synthesis: 'str' object has no attribute 'value'"] /\
  (exists item,
     In item (review_checklist report) /\
     category item = "Security" /\ severity item = "high" /\
     line_reference item = Some "auth/login.py") /\
  secrets_detected report = [] /\
  RiskSecurityAgent._is_security_file (filename file) = false /\
  RiskSecurityAgent._is_auth_file (filename file) = true /\
  risk_score report = 0%Z.
Proof.
  intros Hfiles Hname Hstatus Hadd Hdel Hpatch Hsecrets report.
  subst report.
  assert (Hlog : changelog (run_agent_pipeline no_faults ctx) = ∅).
  { rewrite pipeline_changelog, Hfiles. reflexivity. }
  assert (Htruthy : Py.truthy (patch file) = true).
  { unfold patch_text in Hpatch. destruct (Py.truthy (patch file));
      [reflexivity | discriminate Hpatch]. }
  split; [exact Hlog|].
  split; [rewrite Hlog; apply lookup_empty|].
  split; [apply pipeline_test_suggestions|].
  split.
  { unfold RepoScannerAgent.run. rewrite repo_scanner_analysis, Hfiles.
    reflexivity. }
  split.
  { unfold TestSynthesizerAgent.run. rewrite test_synthesizer_analysis, Hfiles.
    cbn [no_faults test_synthesizer_exc existsb]. unfold PipelineSpec.analysed.
    rewrite Hname, Htruthy.
    change (TestSynthesizerAgent._is_testable_file "auth/login.py") with true.
    reflexivity. }
  split.
  { rewrite pipeline_review_checklist. cbn [no_faults reviewer_exc].
    exists (ReviewerAgent.item "Security"
              "Verify authentication and authorization logic is secure and properly tested"
              "high" (Some "auth/login.py")).
    split; [|repeat split].
    apply in_sort_by_severity. unfold ReviewerAgent.collect_items.
    apply in_or_app. right. apply in_or_app. left.
    unfold ReviewerAgent._analyze_security_considerations. rewrite Hfiles.
    cbn [List.filter]. rewrite Hname.
    change (ReviewerAgent._is_auth_related "auth/login.py") with true.
    cbv iota. cbn [ReviewerAgent.nonempty ReviewerAgent.when
                   ReviewerAgent.names map Py.join].
    rewrite Hname. apply in_or_app. left. left. reflexivity. }
  split.
  { rewrite pipeline_secrets_detected. cbn [no_faults risk_security_exc].
    exact Hsecrets. }
  rewrite Hname.
  split; [reflexivity|]. split; [reflexivity|].
  rewrite pipeline_risk_score. cbn [no_faults risk_security_exc].
  rewrite stage_score_formula, Hsecrets, Hfiles.
  cbn [List.filter sum_additions fold_right]. rewrite Hname, Hadd, Hdel.
  reflexivity.
Qed.

Lemma login_change_loses_changelog_and_suggestions_witness :
  changelog (run_agent_pipeline no_faults login_ctx) !! "features" = None /\
  test_suggestions (run_agent_pipeline no_faults login_ctx) = [] /\
  risk_score (run_agent_pipeline no_faults login_ctx) = 0%Z.
Proof.
  pose proof (login_change_loses_changelog_and_suggestions
                login_ctx login_file login_patch
                ltac:(reflexivity) ltac:(reflexivity) ltac:(reflexivity)
                ltac:(reflexivity) ltac:(reflexivity) ltac:(reflexivity)
                ltac:(vm_compute; reflexivity))
    as (_ & H2 & H3 & _ & _ & _ & _ & _ & _ & H10).
  split; [exact H2|]. split; [exact H3 | exact H10].
Defined.

End EndToEndFacts.
